(** * A shallow embedding of [prompting/mock.py]

    The mock transport of the repository: [MockStreamMiner] (the token
    streamer), and [MockDendrite] with its unary [call], its streaming
    [call_stream] and the fan-out [forward].

    Conventions of the embedding.
    - Python floats (times, timeouts, random draws) are rationals [Q];
      comparisons are the boolean ones of the source.
    - The wall clock and the random generator are an explicit [World]
      threaded through the code; what they answer is fixed by an [Env].
    - Synapse objects live in a [Store] and are passed by reference, as in
      Python; an assignment to an attribute is an update of the store.
    - A generator is a resumption: [Yielded chunk w resume] or [Stopped].
    - The only unbounded loop, the [while] of [call_stream], takes fuel. *)

From Stdlib Require Import ZArith QArith Lqa String Ascii List Lia Bool.
From stdpp Require Import base list strings pretty functions gmap.
Import ListNotations.

Local Open Scope string_scope.
Local Open Scope list_scope.

(** ** Strings *)

(** [str.isspace] on the code points below 256. *)
Definition isspace (c : ascii) : bool :=
  let n := nat_of_ascii c in
  ((9 <=? n)%nat && (n <=? 13)%nat) || ((28 <=? n)%nat && (n <=? 32)%nat)
  || (n =? 133)%nat || (n =? 160)%nat.

(** [s.split()]: the maximal runs of non-space characters, in order.
    [cur] is the token being read. *)
Fixpoint split_from (cur : string) (s : string) : list string :=
  match s with
  | EmptyString => match cur with EmptyString => [] | _ => [cur] end
  | String c s' =>
      if isspace c then
        match cur with
        | EmptyString => split_from "" s'
        | _ => cur :: split_from "" s'
        end
      else split_from (cur +:+ String c "") s'
  end.

Definition split (s : string) : list string := split_from "" s.

(** [" ".join(l)] *)
Definition join (l : list string) : string := String.concat " " l.

(** ** Exceptions and outcomes *)

Inductive Exn : Set :=
| AttributeError | ValueError | TypeError | AssertionError | IndexError.

(** ** The clock and the random source *)

(** [latency k] is the time that passes before the [k]-th reading of the
    clock (on top of the time slept); [random k] is the [k]-th value of
    [random.random()], which Python draws from [0, 1). *)
Record Env : Type := { latency : nat -> Q; random : nat -> Q }.

Record World : Type := { now : Q; reads : nat; draws : nat }.

Definition Qgtb (a b : Q) : bool := negb (Qle_bool a b).
Definition Qltb (a b : Q) : bool := negb (Qle_bool b a).

Section Primitives.
Context (env : Env).

(** [time.time()] *)
Definition time_time (w : World) : Q * World :=
  let t := (now w + latency env (reads w))%Q in
  (t, {| now := t; reads := S (reads w); draws := draws w |}).

(** [random.uniform(a, b)], that is [a + (b - a) * random()] *)
Definition random_uniform (a b : Q) (w : World) : Q * World :=
  ((a + (b - a) * random env (draws w))%Q,
   {| now := now w; reads := reads w; draws := S (draws w) |}).

(** [time.sleep(secs)]; a negative length is a [ValueError]. *)
Definition time_sleep (secs : Q) (w : World) : Exn + World :=
  if Qltb secs 0 then inl ValueError
  else inr {| now := (now w + secs)%Q; reads := reads w; draws := draws w |}.
End Primitives.

(** ** Synapses *)

(** The value [str(x)] of a float [x]. *)
Inductive FloatStr : Set := str (x : Q).

(** [bt.TerminalInfo]: the three fields the mock writes, and the headers. *)
Record TerminalInfo : Type := {
  status_code : option Z;
  status_message : option string;
  process_time : option FloatStr;
  ip : option string;
  port : option Z;
  hotkey : option string
}.

(** Modelled from the spec: the classes [PromptingSynapse] and
    [StreamPromptingSynapse] are imported from [prompting.protocol]; they are
    the two request kinds, unary and streaming, both deriving from
    [bt.Synapse] ([Synapse_], the class of the default argument of
    [forward]) and neither from the other. *)
Inductive SynapseClass : Set :=
| Synapse_ | PromptingSynapse | StreamPromptingSynapse.

Definition SynapseClass_eqb (a b : SynapseClass) : bool :=
  match a, b with
  | Synapse_, Synapse_ => true
  | PromptingSynapse, PromptingSynapse => true
  | StreamPromptingSynapse, StreamPromptingSynapse => true
  | _, _ => false
  end.

Record Synapse : Type := {
  class : SynapseClass;
  roles : list string;
  messages : list string;
  completion : string;
  timeout : Q;
  dendrite : TerminalInfo;
  axon : TerminalInfo
}.

(** [isinstance(synapse, cls)] for the classes above. *)
Definition isinstance (s : Synapse) (cls : SynapseClass) : bool :=
  match cls with
  | Synapse_ => true
  | _ => SynapseClass_eqb (class s) cls
  end.

(** Attribute assignments. *)
Definition set_completion (c : string) (s : Synapse) : Synapse :=
  {| class := class s; roles := roles s; messages := messages s;
     completion := c; timeout := timeout s; dendrite := dendrite s;
     axon := axon s |}.

Definition set_dendrite (f : TerminalInfo -> TerminalInfo) (s : Synapse)
  : Synapse :=
  {| class := class s; roles := roles s; messages := messages s;
     completion := completion s; timeout := timeout s;
     dendrite := f (dendrite s); axon := axon s |}.

Definition set_status_code (c : Z) (d : TerminalInfo) : TerminalInfo :=
  {| status_code := Some c; status_message := status_message d;
     process_time := process_time d; ip := ip d; port := port d;
     hotkey := hotkey d |}.

Definition set_status_message (m : string) (d : TerminalInfo) : TerminalInfo :=
  {| status_code := status_code d; status_message := Some m;
     process_time := process_time d; ip := ip d; port := port d;
     hotkey := hotkey d |}.

Definition set_process_time (p : FloatStr) (d : TerminalInfo) : TerminalInfo :=
  {| status_code := status_code d; status_message := status_message d;
     process_time := Some p; ip := ip d; port := port d;
     hotkey := hotkey d |}.

(** ** The store of synapse objects *)

Definition loc := nat.

Record Store : Type := { obj : loc -> Synapse; fresh : loc }.

(** [r.attr = v], as the update [f] of the object at [r]. *)
Definition assign (r : loc) (f : Synapse -> Synapse) (st : Store) : Store :=
  {| obj := <[r := f (obj st r)]> (obj st); fresh := fresh st |}.
Arguments assign : simpl never.

(** [synapse.copy()]: a new object with the same field values. *)
Definition copy (r : loc) (st : Store) : loc * Store :=
  (fresh st,
   {| obj := <[fresh st := obj st r]> (obj st); fresh := S (fresh st) |}).

(** What a function of the mock ends with. *)
Inductive Outcome (A : Type) : Type :=
| Returned (a : A) (w : World) (st : Store)
| Raised (e : Exn) (w : World) (st : Store)
| OutOfFuel.
Arguments Returned {A} a w st.
Arguments Raised {A} e w st.
Arguments OutOfFuel {A}.

(** ** Generators *)

(** A chunk is the pair [buffer, continue_streaming] the streamer yields. *)
Definition Chunk : Type := list string * bool.

(** A generator that has been asked for its next item: it has yielded a
    chunk and waits to be resumed, or it has returned, after logging the
    exception it caught if any. *)
Inductive Step : Type :=
| Yielded (c : Chunk) (w : World) (resume : World -> Step)
| Stopped (logged : option Exn) (w : World).

(** Running a generator to its end with nothing done between two items. *)
Fixpoint chunks (it : Step) : list Chunk :=
  match it with
  | Yielded c w resume => c :: chunks (resume w)
  | Stopped _ _ => []
  end.

Fixpoint logged_error (it : Step) : option Exn :=
  match it with
  | Yielded _ w resume => logged_error (resume w)
  | Stopped e _ => e
  end.

(** ** MockStreamMiner *)

Module MockStreamMiner.

Record t : Type := { streaming_batch_size : Z; timeout : Q }.

Section Forward.
Context (env : Env).

(** The body of [_forward] from the head of the [for] loop, with [tokens]
    left to read. The [print] of the timeout branch formats
    [time.time() - self.start_time]: the clock is read, then the
    attribute [start_time], which a [MockStreamMiner] does not have, is
    looked up; the [AttributeError] is caught by the [except] clause,
    which logs it, and the generator returns. *)
Fixpoint _forward_loop (self : t) (start_time : Q) (tokens : list string)
    (buffer : list string) (w : World) {struct tokens} : Step :=
  match tokens with
  | [] =>
      match buffer with
      | [] => Stopped None w
      | _ => Yielded (buffer, false) w (fun w' => Stopped None w')
      end
  | token :: rest =>
      let buffer := buffer ++ [token] in
      let '(t1, w) := time_time env w in
      if Qgtb (t1 - start_time) (timeout self) then
        let '(_, w) := time_time env w in
        Stopped (Some AttributeError) w
      else if (Z.of_nat (length buffer) =? streaming_batch_size self)%Z then
        let '(u, w) := random_uniform env 0.2 0.5 w in
        match time_sleep (timeout self * u) w with
        | inl e => Stopped (Some e) w
        | inr w =>
            Yielded (buffer, true) w
              (fun w' => _forward_loop self start_time rest [] w')
        end
      else _forward_loop self start_time rest buffer w
  end.

Definition _forward (self : t) (prompt : string) (start_time : Q)
    (sample : bool) (w : World) : Step :=
  _forward_loop self start_time (split prompt) [] w.

(** [forward]: [prompt = synapse.messages[-1]], then the partial
    application of [_forward]; [None] is the [IndexError] of an empty
    list of messages. *)
Definition forward (self : t) (synapse : Synapse) (start_time : Q)
  : option (bool -> World -> Step) :=
  match list.last (messages synapse) with
  | None => None
  | Some prompt => Some (_forward self prompt start_time)
  end.
End Forward.

End MockStreamMiner.

(** ** MockDendrite *)

(** [bt.AxonInfo], and a target of [forward]: a [bt.axon] (whose [info()] is
    taken) or a [bt.AxonInfo]. *)
Record AxonInfo : Type := {
  axon_ip : string;
  axon_port : Z;
  axon_hotkey : string
}.

Inductive Target : Type :=
| TAxon (info : AxonInfo)
| TAxonInfo (info : AxonInfo).

Definition target_info (target_axon : Target) : AxonInfo :=
  match target_axon with
  | TAxon info => info
  | TAxonInfo info => info
  end.

(** A positional argument of [single_axon_response]. *)
Inductive Arg : Type :=
| AInt (i : nat)
| ATarget (target_axon : Target).

Module MockDendrite.

Section Dendrite.
(** [D] is what [synapse.deserialize()] returns. [deserialize_] is that
    method and [preprocess_synapse_for_request] the one of [bt.dendrite],
    which fills the headers of the request in place; both are
    defined outside [mock.py]. *)
Context (env : Env) {D : Type} (deserialize_ : Synapse -> D)
  (preprocess_synapse_for_request : AxonInfo -> Synapse -> Q -> Synapse).

(** What [call] returns and [call_stream] yields, and the items of the
    list [forward] returns: a synapse object, a deserialized synapse, or
    the asynchronous generator [call_stream(synapse, timeout,
    deserialize)], not started. *)
Inductive Value : Type :=
| VSynapse (r : loc)
| VDeserialized (v : D)
| VStream (synapse : loc) (timeout : Q) (deserialize : bool).

(** The [return] that ends [call] and the [yield] that ends
    [call_stream]. *)
Definition deserialize_if (deserialize : bool) (synapse : loc)
    (st : Store) : Value :=
  if deserialize then VDeserialized (deserialize_ (obj st synapse))
  else VSynapse synapse.

Definition call (i : Z) (start_time : Q) (synapse : loc) (timeout : Q)
    (deserialize : bool) (w : World) (st : Store) : Outcome Value :=
  let process_time_upper_bound := (timeout * 2)%Q in
  let '(process_time, w) :=
    random_uniform env 0 process_time_upper_bound w in
  if Qltb process_time timeout then
    let '(t, w) := time_time env w in
    let st :=
      assign synapse (set_dendrite (set_process_time (str (t - start_time)))) st in
    let st :=
      assign synapse (set_completion ("Mock miner completion " +:+ pretty i)) st in
    let st := assign synapse (set_dendrite (set_status_code 200)) st in
    let st := assign synapse (set_dendrite (set_status_message "OK")) st in
    let st :=
      assign synapse (set_dendrite (set_process_time (str process_time))) st in
    Returned (deserialize_if deserialize synapse st) w st
  else
    let st := assign synapse (set_completion "") st in
    let st := assign synapse (set_dendrite (set_status_code 408)) st in
    let st := assign synapse (set_dendrite (set_status_message "Timeout")) st in
    let st :=
      assign synapse (set_dendrite (set_process_time (str timeout))) st in
    Returned (deserialize_if deserialize synapse st) w st.

(** The state of the loops of [call_stream]. *)
Record Loop : Type := {
  continue_streaming : bool;
  response_buffer : list string;
  world : World;
  store : Store
}.

(** The [for] loop over the items of the token streamer [it], entered
    with the current [response_buffer] and [continue_streaming]. *)
Fixpoint for_loop (start_time timeout : Q) (synapse : loc) (it : Step)
    (response_buffer : list string) (continue_streaming : bool)
    (st : Store) {struct it} : Loop :=
  match it with
  | Stopped _ w =>
      {| continue_streaming := continue_streaming;
         response_buffer := response_buffer; world := w; store := st |}
  | Yielded (buffer, continue_streaming) w resume =>
      let response_buffer := response_buffer ++ buffer in
      if negb continue_streaming then
        let st := assign synapse (set_completion (join response_buffer)) st in
        let st := assign synapse (set_dendrite (set_status_code 200)) st in
        let st := assign synapse (set_dendrite (set_status_message "OK")) st in
        let '(t, w) := time_time env w in
        let st :=
          assign synapse
            (set_dendrite (set_process_time (str (t - start_time)))) st in
        {| continue_streaming := continue_streaming;
           response_buffer := []; world := w; store := st |}
      else
        let '(t, w) := time_time env w in
        if Qgtb (t - start_time) timeout then
          let st :=
            assign synapse (set_completion (join response_buffer)) st in
          let st := assign synapse (set_dendrite (set_status_code 408)) st in
          let st :=
            assign synapse (set_dendrite (set_status_message "Timeout")) st in
          let st :=
            assign synapse (set_dendrite (set_process_time (str timeout))) st in
          {| continue_streaming := false;
             response_buffer := response_buffer; world := w; store := st |}
        else
          for_loop start_time timeout synapse (resume w)
            response_buffer continue_streaming st
  end.

(** The [while continue_streaming] loop; every turn calls
    [token_streamer(True)], which makes a new generator. [None] when the
    fuel runs out. *)
Fixpoint while_loop (fuel : nat) (token_streamer : bool -> World -> Step)
    (start_time timeout : Q) (synapse : loc) (l : Loop) : option Loop :=
  if continue_streaming l then
    match fuel with
    | O => None
    | S fuel =>
        while_loop fuel token_streamer start_time timeout synapse
          (for_loop start_time timeout synapse
             (token_streamer true (world l))
             (response_buffer l) (continue_streaming l) (store l))
    end
  else Some l.

(** [call_stream], run until the one item it yields. *)
Definition call_stream (fuel : nat) (synapse : loc) (timeout : Q)
    (deserialize : bool) (w : World) (st : Store) : Outcome Value :=
  let '(start_time, w) := time_time env w in
  let miner :=
    {| MockStreamMiner.streaming_batch_size := 12;
       MockStreamMiner.timeout := timeout |} in
  match MockStreamMiner.forward env miner (obj st synapse) start_time with
  | None => Raised IndexError w st
  | Some token_streamer =>
      match
        while_loop fuel token_streamer start_time timeout synapse
          {| continue_streaming := true; response_buffer := [];
             world := w; store := st |}
      with
      | None => OutOfFuel
      | Some l =>
          Returned (deserialize_if deserialize synapse (store l))
            (world l) (store l)
      end
  end.

(** [single_axon_response(i, target_axon)] of [forward]. *)
Definition single_axon_response (synapse : loc) (timeout : Q)
    (deserialize is_stream : bool) (i : nat) (target_axon : Target)
    (w : World) (st : Store) : Outcome Value :=
  let '(start_time, w) := time_time env w in
  let '(s, st) := copy synapse st in
  let target_axon := target_info target_axon in
  let st :=
    assign s (fun x => preprocess_synapse_for_request target_axon x timeout)
      st in
  if is_stream then Returned (VStream s timeout false) w st
  else call (Z.of_nat i) start_time s timeout deserialize w st.

(** A call of [single_axon_response] with the positional arguments
    [args]: Python binds them to the parameters [i] and [target_axon] and
    raises [TypeError] when their number is not two. *)
Definition apply_single_axon_response (synapse : loc) (timeout : Q)
    (deserialize is_stream : bool) (args : list Arg)
    (w : World) (st : Store) : Outcome Value :=
  match args with
  | [AInt i; ATarget target_axon] =>
      single_axon_response synapse timeout deserialize is_stream
        i target_axon w st
  | _ => Raised TypeError w st
  end.

(** The awaits of a list of calls one after the other: the list
    comprehension of the sequential branch, and [asyncio.gather] over
    coroutines that never suspend (neither [call] nor the making of a
    stream awaits anything), which the event loop runs in the order of
    their creation. The first exception ends it. *)
Fixpoint await_all (calls : list (World -> Store -> Outcome Value))
    (w : World) (st : Store) : Outcome (list Value) :=
  match calls with
  | [] => Returned [] w st
  | c :: calls =>
      match c w st with
      | Returned v w st =>
          match await_all calls w st with
          | Returned vs w st => Returned (v :: vs) w st
          | Raised e w st => Raised e w st
          | OutOfFuel => OutOfFuel
          end
      | Raised e w st => Raised e w st
      | OutOfFuel => OutOfFuel
      end
  end.

Definition query_all_axons (axons : list Target) (synapse : loc)
    (timeout : Q) (deserialize run_async is_stream : bool)
    (w : World) (st : Store) : Outcome (list Value) :=
  if negb run_async then
    await_all
      (map (fun target_axon =>
              apply_single_axon_response synapse timeout deserialize
                is_stream [ATarget target_axon]) axons) w st
  else
    await_all
      (imap (fun i target_axon =>
               apply_single_axon_response synapse timeout deserialize
                 is_stream [AInt i; ATarget target_axon]) axons) w st.

Definition forward (axons : list Target) (synapse : loc) (timeout : Q)
    (deserialize run_async streaming : bool)
    (w : World) (st : Store) : Outcome (list Value) :=
  if (if streaming then isinstance (obj st synapse) StreamPromptingSynapse
      else isinstance (obj st synapse) PromptingSynapse)
  then query_all_axons axons synapse timeout deserialize run_async
         streaming w st
  else Raised AssertionError w st.

End Dendrite.

End MockDendrite.

(** ** The language-model mocks *)

(** The newline, [chr(10)]. *)
Definition newline : string := String (ascii_of_nat 10) "".

(** [sep.join(s)] for a string [s]: Python iterates over the characters of
    [s]. *)
Definition join_chars (sep : string) (s : string) : string :=
  String.concat sep (map (fun c => String c "") (list_ascii_of_string s)).

(** [s.lstrip()], [s.rstrip()] and [s.strip()]. *)
Fixpoint lstrip (s : string) : string :=
  match s with
  | EmptyString => ""
  | String c s' => if isspace c then lstrip s' else s
  end.

Fixpoint rstrip (s : string) : string :=
  match s with
  | EmptyString => ""
  | String c s' =>
      match rstrip s' with
      | EmptyString => if isspace c then "" else String c ""
      | r => String c r
      end
  end.

Definition strip (s : string) : string := rstrip (lstrip s).

(** [sep] is found at the head of [s]. *)
Fixpoint startswith (sep s : string) : bool :=
  match sep, s with
  | EmptyString, _ => true
  | String a sep', String b s' => Ascii.eqb a b && startswith sep' s'
  | String _ _, EmptyString => false
  end.

(** [s.split(sep)] for a non-empty [sep]: the pieces between the
    occurrences of [sep], found from left to right without overlap. [skip]
    counts the characters of a found separator still to pass, [cur] is the
    piece being read. *)
Fixpoint split_sep_from (sep : string) (skip : nat) (cur : string)
    (s : string) : list string :=
  match s with
  | EmptyString => [cur]
  | String c s' =>
      match skip with
      | S skip => split_sep_from sep skip cur s'
      | O =>
          if startswith sep s then
            cur :: split_sep_from sep (String.length sep - 1) "" s'
          else split_sep_from sep 0 (cur +:+ String c "") s'
      end
  end.

Definition split_sep (sep s : string) : list string :=
  split_sep_from sep 0 "" s.

(** [sep] occurs in [s]. *)
Fixpoint contains (sep s : string) : bool :=
  startswith sep s
  || match s with
     | EmptyString => false
     | String _ s' => contains sep s'
     end.

Module MockTokenizer.

(** [self.role_expr.format(role=role)], with the [role_expr] that
    [__init__] sets, "<|mock-{role}|>". *)
Definition role_expr_format (role : string) : string :=
  "<|mock-" +:+ role +:+ "|>".

(** The loop of [apply_chat_template] over the messages left, with the
    prompt built so far; a message is a dict, and [None] is the [KeyError]
    of a message without "role" or without "content". *)
Fixpoint build_prompt (messages : list (gmap string string))
    (prompt : string) : option string :=
  match messages with
  | [] => Some prompt
  | m :: messages =>
      match m !! "role" with
      | None => None
      | Some r =>
          let role := role_expr_format r in
          match m !! "content" with
          | None => None
          | Some content =>
              build_prompt messages
                (prompt +:+ ("<|mock-" +:+ role +:+ "|> " +:+ content
                             +:+ newline))
          end
      end
  end.

Definition apply_chat_template (messages : list (gmap string string))
  : option string :=
  match build_prompt messages "" with
  | None => None
  | Some prompt => Some (join_chars newline prompt)
  end.

End MockTokenizer.

Module MockModel.

Record t : Type := { phrase : string }.

(** [forward], which [__call__] calls: the messages are not looked at. *)
Definition forward {M : Type} (self : t) (messages : M) : string :=
  let role_tag := MockTokenizer.role_expr_format "assistant" in
  role_tag +:+ " " +:+ phrase self.

End MockModel.

Module MockPipeline.

Record t : Type := { model : MockModel.t }.

(** [__init__] with its default phrase. *)
Definition init (phrase : option string) : t :=
  {| model := {| MockModel.phrase := default "Mock llm output" phrase |} |}.

(** [output.split(tag)[-1].strip()], in a list of one dict. A [split] always
    gives at least one piece. *)
Definition postprocess (self : t) (output : string)
  : list (gmap string string) :=
  let output :=
    strip (List.last
             (split_sep (MockTokenizer.role_expr_format "assistant") output)
             "") in
  [ {[ "generated_text" := output ]} ].

Definition forward {M : Type} (self : t) (messages : M)
  : list (gmap string string) :=
  let output := MockModel.forward (model self) messages in
  postprocess self output.

End MockPipeline.

(** ** Readings of the clock *)

(** The world after [n] readings of the clock. *)
Fixpoint ticks (env : Env) (n : nat) (w : World) : World :=
  match n with
  | O => w
  | S n => ticks env n (snd (time_time env w))
  end.

(** A string without any whitespace character, and one of whitespace
    only. *)
Fixpoint spaceless (s : string) : bool :=
  match s with
  | EmptyString => true
  | String c s' => negb (isspace c) && spaceless s'
  end.

Fixpoint blank_string (s : string) : bool :=
  match s with
  | EmptyString => true
  | String c s' => isspace c && blank_string s'
  end.

(** A token, as [split] gives them: not empty, no whitespace. *)
Definition is_token (t : string) : Prop := t <> "" /\ spaceless t = true.

(** * Concrete inputs *)

(** A clock that only advances by sleeping, and a random source stuck at
    one half. *)
Definition steady : Env :=
  {| latency := fun _ => 0%Q; random := fun _ => (1 # 2)%Q |}.

(** A clock that takes 0.6 s between any two readings. *)
Definition slow_clock : Env :=
  {| latency := fun _ => (3 # 5)%Q; random := fun _ => (1 # 2)%Q |}.

(** A clock that stalls for 2 s before its third reading. *)
Definition stalling : Env :=
  {| latency := fun k => if (k =? 2)%nat then 2%Q else 0%Q;
     random := fun _ => (1 # 2)%Q |}.

Definition origin : World := {| now := 0; reads := 0; draws := 0 |}.

Definition blank : TerminalInfo :=
  {| status_code := None; status_message := None; process_time := None;
     ip := None; port := None; hotkey := None |}.

Definition request (cls : SynapseClass) (prompt : string) : Synapse :=
  {| class := cls; roles := ["user"]; messages := [prompt]; completion := "";
     timeout := 12; dendrite := blank; axon := blank |}.

(** A store whose object 0 is the request, with the next object at 1. *)
Definition one_request (cls : SynapseClass) (prompt : string) : Store :=
  {| obj := fun _ => request cls prompt; fresh := 1 |}.

(** A store whose objects are a streaming request without any message. *)
Definition no_message : Store :=
  {| obj := fun _ =>
              {| class := StreamPromptingSynapse; roles := []; messages := [];
                 completion := ""; timeout := 12; dendrite := blank;
                 axon := blank |};
     fresh := 1 |}.

(** The headers [preprocess_synapse_for_request] writes, as far as the
    examples need them: the timeout and the address of the target. *)
Definition address_to (info : AxonInfo) (s : Synapse) (timeout : Q) : Synapse :=
  {| class := class s; roles := roles s; messages := messages s;
     completion := completion s; timeout := timeout; dendrite := blank;
     axon := {| status_code := None; status_message := None;
                process_time := None; ip := Some (axon_ip info);
                port := Some (axon_port info);
                hotkey := Some (axon_hotkey info) |} |}.

Definition miner_at (n : Z) : Target :=
  TAxonInfo {| axon_ip := "127.0.0.0"; axon_port := 8091;
               axon_hotkey := "miner-hotkey-" +:+ pretty n |}.

(** The sum of the [n] latencies from the [k]-th reading on. *)
Fixpoint latencies (env : Env) (k n : nat) : Q :=
  match n with
  | O => 0
  | S n => (latency env k + latencies env (S k) n)%Q
  end.

(** The length of the sleep before a full batch is yielded, when it is the
    [k]-th draw that decides it. *)
Definition batch_delay (env : Env) (timeout : Q) (k : nat) : Q :=
  (timeout * (0.2 + (0.5 - 0.2) * random env k))%Q.

(** [completion] joins the first [k] tokens of [prompt], for some [k]. *)
Definition token_prefix (completion prompt : string) : Prop :=
  exists k : nat, completion = join (take k (split prompt)).

(** [process_time] holds a time of at most [bound]. *)
Definition process_time_within (bound : Q) (s : Synapse) : Prop :=
  match process_time (dendrite s) with
  | Some (str p) => (p <= bound)%Q
  | None => False
  end.

(** The world after one reading of the clock. *)
Definition tick (env : Env) (w : World) : World := snd (time_time env w).

(** The world in which a full batch is yielded: the clock has been read for
    the token that filled it, and the drawn delay slept. *)
Definition batch_world (env : Env) (T : Q) (w : World) : World :=
  {| now := now w + latency env (reads w) + batch_delay env T (draws w);
     reads := S (reads w); draws := S (draws w) |}.

(** The synapse at [r] when the call has returned. *)
Definition record_of {A : Type} (o : Outcome A) (r : loc) : option Synapse :=
  match o with
  | Returned _ _ st => Some (obj st r)
  | _ => None
  end.

(** The two ways [call_stream] fills the record at [r]: the success, timed
    at the last reading of the clock, and the timeout. *)
Definition finalized_200 (start_time : Q) (r : loc)
    (l : MockDendrite.Loop) : Prop :=
  status_code (dendrite (obj (MockDendrite.store l) r)) = Some 200%Z /\
  status_message (dendrite (obj (MockDendrite.store l) r)) = Some "OK" /\
  process_time (dendrite (obj (MockDendrite.store l) r))
  = Some (str (now (MockDendrite.world l) - start_time)).

Definition finalized_408 (T : Q) (r : loc) (l : MockDendrite.Loop) : Prop :=
  status_code (dendrite (obj (MockDendrite.store l) r)) = Some 408%Z /\
  status_message (dendrite (obj (MockDendrite.store l) r)) = Some "Timeout" /\
  process_time (dendrite (obj (MockDendrite.store l) r)) = Some (str T).

Definition twelve_tokens : string := "a b c d e f g h i j k l".

(** The record of a unary call for the target of index [i]. *)
Definition unary_record (i : Z) (s : Synapse) : Prop :=
  (status_code (dendrite s) = Some 200%Z /\
   completion s = "Mock miner completion " +:+ pretty i) \/
  (status_code (dendrite s) = Some 408%Z /\ completion s = "").

(** The line of a chat message, as [apply_chat_template] writes it: the role
    inside the role tag inside the role tag, the content, a newline. *)
Definition chat_line (m : gmap string string) : string :=
  "<|mock-<|mock-" +:+ default "" (m !! "role") +:+ "|>|> "
  +:+ default "" (m !! "content") +:+ newline.

(** A message with its two keys. *)
Definition well_keyed (m : gmap string string) : Prop :=
  is_Some (m !! "role") /\ is_Some (m !! "content").

(** * Properties *)

(** ** Comparisons, the store *)

Lemma Qgtb_true (a b : Q) : Qgtb a b = true <-> (b < a)%Q.
Proof.
  unfold Qgtb. rewrite negb_true_iff, <- not_true_iff_false, Qle_bool_iff.
  split; [apply Qnot_le_lt | apply Qlt_not_le].
Qed.

Lemma Qgtb_false (a b : Q) : Qgtb a b = false <-> (a <= b)%Q.
Proof. unfold Qgtb. rewrite negb_false_iff. apply Qle_bool_iff. Qed.

Lemma Qltb_true (a b : Q) : Qltb a b = true <-> (a < b)%Q.
Proof. apply Qgtb_true. Qed.

Lemma Qltb_false (a b : Q) : Qltb a b = false <-> (b <= a)%Q.
Proof. apply Qgtb_false. Qed.

Lemma obj_assign (r : loc) f st : obj (assign r f st) r = f (obj st r).
Proof. unfold assign; simpl. apply fn_lookup_insert. Qed.

Lemma obj_assign_ne (r r' : loc) f st :
  r' <> r -> obj (assign r f st) r' = obj st r'.
Proof. intros Hne. unfold assign; simpl. apply fn_lookup_insert_ne. congruence. Qed.

Lemma fresh_assign (r : loc) f st : fresh (assign r f st) = fresh st.
Proof. reflexivity. Qed.

(** Distinct target indices give distinct placeholders. *)
Lemma placeholder_inj (i j : Z) :
  "Mock miner completion " +:+ pretty i = "Mock miner completion " +:+ pretty j ->
  i = j.
Proof.
  intros H. apply (inj pretty). exact (String.app_inj _ _ _ H).
Qed.

(** ** The unary call *)

Ltac store_reads :=
  repeat first
    [ rewrite obj_assign
    | rewrite obj_assign_ne by assumption
    | rewrite fresh_assign ].

(** C2. A unary call with a timeout [T > 0] draws [process_time] from
    [0, 2T). It always returns. When the drawn value is below [T] the
    record holds the placeholder "Mock miner completion i", which determines
    the target index [i], the status 200 "OK" and the drawn value as
    [process_time], so [0 <= process_time < T]; otherwise it holds the empty
    completion, the status 408 "Timeout" and exactly [T]. *)
Theorem call_unary_outcome (env : Env) {D : Type} (deserialize_ : Synapse -> D)
    (i : Z) (start_time : Q) (synapse : loc) (T : Q) (deserialize : bool)
    (w : World) (st : Store) :
  (0 < T)%Q ->
  (0 <= random env (draws w))%Q -> (random env (draws w) < 1)%Q ->
  let drawn := fst (random_uniform env 0 (T * 2) w) in
  ((0 <= drawn)%Q /\ (drawn < T * 2)%Q) /\
  exists v w' st',
    MockDendrite.call env deserialize_ i start_time synapse T deserialize w st
      = Returned v w' st' /\
    let s := obj st' synapse in
    ((drawn < T)%Q ->
       completion s = "Mock miner completion " +:+ pretty i /\
       (forall j : Z, completion s = "Mock miner completion " +:+ pretty j -> j = i) /\
       status_code (dendrite s) = Some 200%Z /\
       status_message (dendrite s) = Some "OK" /\
       process_time (dendrite s) = Some (str drawn) /\
       (0 <= drawn)%Q /\ (drawn < T)%Q) /\
    ((T <= drawn)%Q ->
       completion s = "" /\
       status_code (dendrite s) = Some 408%Z /\
       status_message (dendrite s) = Some "Timeout" /\
       process_time (dendrite s) = Some (str T)).
Proof.
  intros HT Hlo Hhi drawn.
  assert (Hrange : (0 <= drawn)%Q /\ (drawn < T * 2)%Q).
  { subst drawn. unfold random_uniform; simpl. split; nra. }
  split; [exact Hrange|].
  unfold MockDendrite.call.
  destruct (random_uniform env 0 (T * 2) w) as [p w1] eqn:Hdraw.
  simpl in drawn. subst drawn.
  destruct (Qltb p T) eqn:Hlt.
  - apply Qltb_true in Hlt.
    destruct (time_time env w1) as [t w2].
    eexists _, _, _. split; [reflexivity|]. cbv zeta. store_reads. simpl.
    split.
    + intros _. repeat split; try reflexivity; try tauto.
      intros j Hj. symmetry. exact (placeholder_inj _ _ Hj).
    + intros Hge. exfalso. apply (Qlt_not_le _ _ Hlt Hge).
  - apply Qltb_false in Hlt.
    eexists _, _, _. split; [reflexivity|]. cbv zeta. store_reads. simpl.
    split.
    + intros Hlt'. exfalso. apply (Qlt_not_le _ _ Hlt' Hlt).
    + intros _. repeat split; reflexivity.
Qed.

Lemma call_unary_outcome_witness :
  (0 < 1)%Q /\
  exists v w' st',
    MockDendrite.call steady (fun s => completion s) 3 0 0 1 false origin
      (one_request PromptingSynapse "hello") = Returned v w' st'.
Proof.
  split; [reflexivity|].
  destruct (call_unary_outcome steady (fun s => completion s) 3 0 0 1 false
              origin (one_request PromptingSynapse "hello"))
    as [_ (v & w' & st' & Hcall & _)];
    [reflexivity | discriminate | reflexivity |].
  exists v, w', st'. exact Hcall.
Defined.

(** C10. A unary call changes, in the store, only the synapse it is given,
    and of that synapse only [completion] and the [status_code],
    [status_message] and [process_time] of its [dendrite]; with
    [deserialize = false] it returns the very object it was given. *)
Theorem call_frame (env : Env) {D : Type} (deserialize_ : Synapse -> D)
    (i : Z) (start_time : Q) (synapse : loc) (T : Q) (deserialize : bool)
    (w : World) (st : Store) :
  exists v w' st',
    MockDendrite.call env deserialize_ i start_time synapse T deserialize w st
      = Returned v w' st' /\
    (forall r : loc, r <> synapse -> obj st' r = obj st r) /\
    fresh st' = fresh st /\
    (let s := obj st synapse in
     let s' := obj st' synapse in
     class s' = class s /\ roles s' = roles s /\ messages s' = messages s /\
     timeout s' = timeout s /\ axon s' = axon s /\
     ip (dendrite s') = ip (dendrite s) /\
     port (dendrite s') = port (dendrite s) /\
     hotkey (dendrite s') = hotkey (dendrite s)) /\
    (deserialize = false -> v = MockDendrite.VSynapse synapse).
Proof.
  unfold MockDendrite.call.
  destruct (random_uniform env 0 (T * 2) w) as [p w1].
  destruct (Qltb p T); [destruct (time_time env w1) as [t w2]|];
    (eexists _, _, _; split; [reflexivity|]; repeat split;
     [ intros r Hr; store_reads; reflexivity
     | store_reads; reflexivity ..
     | intros ->; reflexivity ]).
Qed.

(** ** The fan-out *)

(** C9. When the class of the synapse does not match the [streaming] flag,
    [forward] raises [AssertionError] at once: the clock has not been read,
    no copy of the synapse has been made, no target has been queried. *)
Theorem forward_kind_mismatch (env : Env) {D : Type}
    (deserialize_ : Synapse -> D)
    (preprocess : AxonInfo -> Synapse -> Q -> Synapse)
    (axons : list Target) (synapse : loc) (T : Q)
    (deserialize run_async streaming : bool) (w : World) (st : Store) :
  (streaming = true /\ class (obj st synapse) <> StreamPromptingSynapse) \/
  (streaming = false /\ class (obj st synapse) <> PromptingSynapse) ->
  MockDendrite.forward env deserialize_ preprocess axons synapse T
    deserialize run_async streaming w st
  = Raised AssertionError w st.
Proof.
  unfold MockDendrite.forward, isinstance.
  intros [[-> Hc] | [-> Hc]]; destruct (class (obj st synapse));
    simpl; congruence.
Qed.

Lemma forward_kind_mismatch_witness :
  MockDendrite.forward steady (fun s => completion s) address_to
    [miner_at 1; miner_at 2] 0 12 true true true origin
    (one_request PromptingSynapse "hello")
  = Raised AssertionError origin (one_request PromptingSynapse "hello").
Proof.
  apply forward_kind_mismatch. left. split; [reflexivity | discriminate].
Defined.

(** ** The token streamer *)

Section StreamerEquations.
Context (env : Env) (self : MockStreamMiner.t) (start_time : Q).

Let T := MockStreamMiner.timeout self.
Let batch := MockStreamMiner.streaming_batch_size self.

(** The timeout branch: the generator stops without any further item. *)
Lemma _forward_loop_timeout token rest buffer w :
  (T < now w + latency env (reads w) - start_time)%Q ->
  MockStreamMiner._forward_loop env self start_time (token :: rest) buffer w
  = Stopped (Some AttributeError) (tick env (tick env w)).
Proof.
  intros H. apply Qgtb_true in H. simpl. fold T. rewrite H. reflexivity.
Qed.

(** A token that does not fill the batch. *)
Lemma _forward_loop_next token rest buffer w :
  (now w + latency env (reads w) - start_time <= T)%Q ->
  Z.of_nat (length (buffer ++ [token])) <> batch ->
  MockStreamMiner._forward_loop env self start_time (token :: rest) buffer w
  = MockStreamMiner._forward_loop env self start_time rest
      (buffer ++ [token]) (tick env w).
Proof.
  intros H Hb. apply Qgtb_false in H. apply Z.eqb_neq in Hb.
  simpl. fold T batch. rewrite H, Hb. reflexivity.
Qed.

(** A token that fills the batch. *)
Lemma _forward_loop_batch token rest buffer w :
  (now w + latency env (reads w) - start_time <= T)%Q ->
  Z.of_nat (length (buffer ++ [token])) = batch ->
  (0 <= batch_delay env T (draws w))%Q ->
  MockStreamMiner._forward_loop env self start_time (token :: rest) buffer w
  = Yielded (buffer ++ [token], true) (batch_world env T w)
      (fun w' => MockStreamMiner._forward_loop env self start_time rest [] w').
Proof.
  intros H Hb Hs. apply Qgtb_false in H. apply Z.eqb_eq in Hb.
  apply Qltb_false in Hs.
  simpl. fold T batch. rewrite H, Hb.
  unfold time_sleep, batch_delay in *. simpl. rewrite Hs. reflexivity.
Qed.

(** The same three cases, and the end of the tokens, for the chunks of a
    streamer that is run to its end. *)
Lemma chunks_timeout token rest buffer w :
  (T < now w + latency env (reads w) - start_time)%Q ->
  chunks (MockStreamMiner._forward_loop env self start_time
            (token :: rest) buffer w) = [].
Proof. intros H. rewrite _forward_loop_timeout by exact H. reflexivity. Qed.

Lemma chunks_next token rest buffer w :
  (now w + latency env (reads w) - start_time <= T)%Q ->
  Z.of_nat (length (buffer ++ [token])) <> batch ->
  chunks (MockStreamMiner._forward_loop env self start_time
            (token :: rest) buffer w)
  = chunks (MockStreamMiner._forward_loop env self start_time rest
              (buffer ++ [token]) (tick env w)).
Proof. intros H Hb. rewrite _forward_loop_next by assumption. reflexivity. Qed.

Lemma chunks_batch token rest buffer w :
  (now w + latency env (reads w) - start_time <= T)%Q ->
  Z.of_nat (length (buffer ++ [token])) = batch ->
  (0 <= batch_delay env T (draws w))%Q ->
  chunks (MockStreamMiner._forward_loop env self start_time
            (token :: rest) buffer w)
  = (buffer ++ [token], true)
    :: chunks (MockStreamMiner._forward_loop env self start_time rest []
                 (batch_world env T w)).
Proof.
  intros H Hb Hs. rewrite _forward_loop_batch by assumption. reflexivity.
Qed.

Lemma chunks_end buffer w :
  chunks (MockStreamMiner._forward_loop env self start_time [] buffer w)
  = match buffer with [] => [] | _ => [(buffer, false)] end.
Proof. destruct buffer; reflexivity. Qed.
End StreamerEquations.

Lemma batch_delay_nonneg env T k :
  (0 <= T)%Q -> (0 <= random env k)%Q -> (0 <= batch_delay env T k)%Q.
Proof.
  intros HT Hr. unfold batch_delay. apply Qmult_le_0_compat; [exact HT | lra].
Qed.

Lemma split_abcde : split "a b c d e" = ["a"; "b"; "c"; "d"; "e"].
Proof. reflexivity. Qed.

(** C7. The prompt "a b c d e", streamed in batches of two while the clock
    stays within the timeout up to the check of the fifth token, gives the
    chunks (a b, more), (c d, more), (e, no more): the tokens of the prompt,
    in order. The clock is monotone and the draws are non-negative. *)
Theorem token_streamer_batches_of_two (env : Env) (T start_time : Q)
    (w : World) :
  (forall k, 0 <= latency env k)%Q ->
  (forall k, 0 <= random env k)%Q ->
  (0 <= T)%Q ->
  (now w + latencies env (reads w) 5
   + batch_delay env T (draws w) + batch_delay env T (S (draws w))
   - start_time <= T)%Q ->
  chunks (MockStreamMiner._forward env
            {| MockStreamMiner.streaming_batch_size := 2;
               MockStreamMiner.timeout := T |} "a b c d e" start_time true w)
  = [(["a"; "b"], true); (["c"; "d"], true); (["e"], false)] /\
  concat (map fst
    (chunks (MockStreamMiner._forward env
               {| MockStreamMiner.streaming_batch_size := 2;
                  MockStreamMiner.timeout := T |} "a b c d e" start_time true w)))
  = split "a b c d e".
Proof.
  intros Hlat Hrnd HT Hfit.
  pose proof (batch_delay_nonneg env T (draws w) HT (Hrnd _)) as Hd0.
  pose proof (batch_delay_nonneg env T (S (draws w)) HT (Hrnd _)) as Hd1.
  pose proof (Hlat (reads w)) as L0.
  pose proof (Hlat (S (reads w))) as L1.
  pose proof (Hlat (S (S (reads w)))) as L2.
  pose proof (Hlat (S (S (S (reads w))))) as L3.
  pose proof (Hlat (S (S (S (S (reads w)))))) as L4.
  simpl latencies in Hfit.
  unfold MockStreamMiner._forward. rewrite split_abcde.
  rewrite chunks_next; [| simpl; lra | discriminate].
  rewrite chunks_batch; [| simpl; lra | reflexivity | exact Hd0].
  rewrite chunks_next; [| simpl; lra | discriminate].
  rewrite chunks_batch; [| simpl; lra | reflexivity | exact Hd1].
  rewrite chunks_next; [| simpl; lra | discriminate].
  rewrite chunks_end. split; reflexivity.
Qed.

Lemma token_streamer_batches_of_two_witness :
  chunks (MockStreamMiner._forward steady
            {| MockStreamMiner.streaming_batch_size := 2;
               MockStreamMiner.timeout := 10 |} "a b c d e" 0 true origin)
  = [(["a"; "b"], true); (["c"; "d"], true); (["e"], false)].
Proof.
  refine (proj1 (token_streamer_batches_of_two steady 10 0 origin _ _ _ _)).
  - intros k. discriminate.
  - intros k. discriminate.
  - discriminate.
  - vm_compute. discriminate.
Defined.

(** C4 (the code departs from it). When the elapsed-time check of the
    streamer fires, the generator ends without yielding anything more: the
    buffer, which holds at least the token just read, is dropped, and an
    [AttributeError] is logged. *)
Theorem streamer_timeout_drops_buffer (env : Env) (self : MockStreamMiner.t)
    (start_time : Q) (token : string) (rest buffer : list string) (w : World) :
  (MockStreamMiner.timeout self < now w + latency env (reads w) - start_time)%Q ->
  chunks (MockStreamMiner._forward_loop env self start_time
            (token :: rest) buffer w) = [] /\
  logged_error (MockStreamMiner._forward_loop env self start_time
                  (token :: rest) buffer w) = Some AttributeError.
Proof.
  intros H. rewrite _forward_loop_timeout by exact H. split; reflexivity.
Qed.

Lemma streamer_timeout_drops_buffer_witness :
  chunks (MockStreamMiner._forward_loop stalling
            {| MockStreamMiner.streaming_batch_size := 2;
               MockStreamMiner.timeout := 1 |} 0 ["c"] []
            {| now := 7 # 20; reads := 2; draws := 1 |}) = [] /\
  chunks (MockStreamMiner._forward stalling
            {| MockStreamMiner.streaming_batch_size := 2;
               MockStreamMiner.timeout := 1 |} "a b c" 0 true origin)
  = [(["a"; "b"], true)].
Proof.
  split.
  - refine (proj1 (streamer_timeout_drops_buffer stalling _ 0 "c" [] []
                     {| now := 7 # 20; reads := 2; draws := 1 |} _)).
    reflexivity.
  - vm_compute. reflexivity.
Defined.

(** ** The streaming call *)

(** C5. On a chunk with [more_coming = false] the driver finalizes the
    record as 200 "OK" with the joined tokens received so far and the time
    elapsed at that point, and leaves its loops; the timeout is not looked
    at, so this holds whatever the elapsed time. *)
Theorem final_chunk_is_success (env : Env) (start_time T : Q) (synapse : loc)
    (buffer : list string) (w : World) (resume : World -> Step)
    (response_buffer : list string) (continue_streaming : bool) (st : Store) :
  let l := MockDendrite.for_loop env start_time T synapse
             (Yielded (buffer, false) w resume)
             response_buffer continue_streaming st in
  MockDendrite.continue_streaming l = false /\
  completion (obj (MockDendrite.store l) synapse)
  = join (response_buffer ++ buffer) /\
  finalized_200 start_time synapse l /\
  now (MockDendrite.world l) = (now w + latency env (reads w))%Q /\
  forall fuel token_streamer,
    MockDendrite.while_loop env fuel token_streamer start_time T synapse l
    = Some l.
Proof.
  cbv zeta. unfold finalized_200.
  cbn [MockDendrite.for_loop negb time_time MockDendrite.store
       MockDendrite.world MockDendrite.continue_streaming].
  store_reads. repeat split. intros fuel ts. destruct fuel; reflexivity.
Qed.

Section StreamingLoops.
Context (env : Env) (start_time T : Q) (synapse : loc).

(** The [for] loop over a streamer, entered with [continue_streaming]
    true, ends in one of three ways: the streamer ran out and nothing was
    written, or the record was finalized, as a success or as a timeout. *)
Lemma for_loop_cases (it : Step) (response_buffer : list string)
    (st : Store) :
  let l := MockDendrite.for_loop env start_time T synapse it
             response_buffer true st in
  (MockDendrite.continue_streaming l = true /\ MockDendrite.store l = st) \/
  (MockDendrite.continue_streaming l = false /\
   (finalized_200 start_time synapse l \/ finalized_408 T synapse l)).
Proof.
  revert response_buffer st.
  induction it as [[buffer more] w resume IH | e w]; intros rb st.
  - cbn [MockDendrite.for_loop]. destruct more; cbn [negb].
    + destruct (time_time env w) as [t w1].
      destruct (Qgtb (t - start_time) T).
      * right. split; [reflexivity|]. right. unfold finalized_408.
        cbn [MockDendrite.store]. store_reads. repeat split.
      * apply IH.
    + right. split; [reflexivity|]. left. unfold finalized_200.
      cbn [time_time MockDendrite.store MockDendrite.world].
      store_reads. repeat split.
  - left. split; reflexivity.
Qed.

(** The [while] loop returns only with a finalized record. *)
Lemma while_loop_finalized (token_streamer : bool -> World -> Step)
    (fuel : nat) (l l' : MockDendrite.Loop) :
  MockDendrite.continue_streaming l = true ->
  MockDendrite.while_loop env fuel token_streamer start_time T synapse l
  = Some l' ->
  MockDendrite.continue_streaming l' = false /\
  (finalized_200 start_time synapse l' \/ finalized_408 T synapse l').
Proof.
  revert l. induction fuel as [|fuel IH]; intros l Hc Hw.
  - simpl in Hw. rewrite Hc in Hw. discriminate.
  - cbn [MockDendrite.while_loop] in Hw. rewrite Hc in Hw.
    destruct (for_loop_cases (token_streamer true (MockDendrite.world l))
                (MockDendrite.response_buffer l) (MockDendrite.store l))
      as [[Hc1 _] | [Hc1 Hfin]].
    + exact (IH _ Hc1 Hw).
    + destruct fuel; simpl in Hw; rewrite Hc1 in Hw;
        injection Hw as <-; split; assumption.
Qed.

(** A streamer that never yields keeps the [while] loop turning. *)
Lemma while_loop_starved (token_streamer : bool -> World -> Step)
    (fuel : nat) (l : MockDendrite.Loop) :
  (forall w, chunks (token_streamer true w) = []) ->
  MockDendrite.continue_streaming l = true ->
  MockDendrite.while_loop env fuel token_streamer start_time T synapse l
  = None.
Proof.
  intros Hts. revert l. induction fuel as [|fuel IH]; intros l Hc.
  - simpl. rewrite Hc. reflexivity.
  - cbn [MockDendrite.while_loop]. rewrite Hc. apply IH.
    specialize (Hts (MockDendrite.world l)).
    destruct (token_streamer true (MockDendrite.world l)); [discriminate|].
    reflexivity.
Qed.
End StreamingLoops.

(** A prompt without any token makes [call_stream] loop for ever, whatever
    the clock and the timeout. *)
Lemma call_stream_no_token (env : Env) {D : Type} (deserialize_ : Synapse -> D)
    (fuel : nat) (synapse : loc) (T : Q) (deserialize : bool)
    (w : World) (st : Store) (prompt : string) :
  list.last (messages (obj st synapse)) = Some prompt ->
  split prompt = [] ->
  MockDendrite.call_stream env deserialize_ fuel synapse T deserialize w st
  = OutOfFuel.
Proof.
  intros Hlast Hsplit. unfold MockDendrite.call_stream.
  destruct (time_time env w) as [t w1].
  unfold MockStreamMiner.forward. rewrite Hlast.
  rewrite while_loop_starved; [reflexivity | | reflexivity].
  intros w'. unfold MockStreamMiner._forward. rewrite Hsplit. reflexivity.
Qed.

(** C3 (the code departs from it). With the empty prompt, a finite
    timeout of 12 s and a clock that advances at every reading,
    [call_stream] never yields its record: no amount of fuel is enough. *)
Theorem call_stream_empty_prompt_hangs (fuel : nat) :
  MockDendrite.call_stream slow_clock (fun s => completion s) fuel 0 12 false
    origin (one_request StreamPromptingSynapse "")
  = OutOfFuel.
Proof.
  apply (call_stream_no_token slow_clock (fun s => completion s) fuel 0 12 false
           origin (one_request StreamPromptingSynapse "") "");
    reflexivity.
Qed.

(** C6 (the code departs from it). A prompt of twelve tokens, one full
    batch, leaves the streamer without a final chunk; the driver starts a
    new streamer over the same prompt at every turn of its [while] loop and
    appends its tokens again. With a timeout of 1 s and batches that take
    0.35 s the record ends as a 408 whose completion is the prompt three
    times over, which is no prefix of the tokens of the prompt. *)
Theorem call_stream_repeats_tokens :
  option_map completion
    (record_of
       (MockDendrite.call_stream steady (fun s => completion s) 10 0 1 false
          origin (one_request StreamPromptingSynapse twelve_tokens)) 0)
  = Some (join (split twelve_tokens ++ split twelve_tokens
                ++ split twelve_tokens)) /\
  ~ token_prefix
      (join (split twelve_tokens ++ split twelve_tokens ++ split twelve_tokens))
      twelve_tokens.
Proof.
  split; [vm_compute; reflexivity|].
  intros [k Hk].
  do 13 (destruct k as [|k]; [vm_compute in Hk; discriminate|]).
  vm_compute in Hk. discriminate.
Qed.

(** C8, the claim as stated fails: a one-token prompt with a timeout of 1 s
    and a clock that takes 0.6 s per reading passes the check of the
    streamer at 0.6 s and is finalized at 1.2 s, as a success whose
    [process_time] exceeds the timeout. *)
Lemma stream_success_exceeds_timeout :
  exists s : Synapse,
    record_of
      (MockDendrite.call_stream slow_clock (fun s => completion s) 10 0 1 false
         origin (one_request StreamPromptingSynapse "a")) 0 = Some s /\
    status_code (dendrite s) = Some 200%Z /\
    ~ process_time_within 1 s.
Proof.
  destruct (record_of _ 0) as [s|] eqn:Hrun; vm_compute in Hrun;
    [|discriminate].
  injection Hrun as <-. eexists. split; [reflexivity|]. split; [reflexivity|].
  unfold process_time_within. simpl. intros H. vm_compute in H. apply H.
  reflexivity.
Qed.

(** C8, amended. Every unary call returns, and its record has
    [process_time] equal to the drawn value and the status 200 when that
    value is below the timeout, and [process_time = timeout] and the status
    408 otherwise. A record the streaming call yields has either the status
    408 and [process_time = timeout], or the status 200 and, as
    [process_time], the time elapsed from the start of the call to its last
    reading of the clock, which nothing bounds by the timeout. *)
Theorem process_time_of_records (env : Env) {D : Type}
    (deserialize_ : Synapse -> D) :
  (forall (i : Z) (start_time : Q) (synapse : loc) (T : Q)
          (deserialize : bool) (w : World) (st : Store),
     exists s,
       record_of (MockDendrite.call env deserialize_ i start_time synapse T
                    deserialize w st) synapse = Some s /\
       ((status_code (dendrite s) = Some 200%Z /\
         process_time (dendrite s)
         = Some (str (fst (random_uniform env 0 (T * 2) w))) /\
         (fst (random_uniform env 0 (T * 2) w) < T)%Q) \/
        (status_code (dendrite s) = Some 408%Z /\
         process_time (dendrite s) = Some (str T) /\
         (T <= fst (random_uniform env 0 (T * 2) w))%Q))) /\
  (forall (fuel : nat) (synapse : loc) (T : Q) (deserialize : bool)
          (w : World) (st : Store) (v : MockDendrite.Value) (w' : World)
          (st' : Store),
     MockDendrite.call_stream env deserialize_ fuel synapse T deserialize w st
       = Returned v w' st' ->
     (status_code (dendrite (obj st' synapse)) = Some 408%Z /\
      process_time (dendrite (obj st' synapse)) = Some (str T)) \/
     (status_code (dendrite (obj st' synapse)) = Some 200%Z /\
      process_time (dendrite (obj st' synapse))
      = Some (str (now w' - fst (time_time env w))))).
Proof.
  split.
  - intros i start_time synapse T deserialize w st.
    unfold MockDendrite.call.
    destruct (random_uniform env 0 (T * 2) w) as [p w1]. cbn [fst].
    destruct (Qltb p T) eqn:Hlt.
    + apply Qltb_true in Hlt. destruct (time_time env w1) as [t w2].
      eexists. cbn [record_of]. store_reads.
      split; [reflexivity|]. left.
      split; [reflexivity|]. split; [reflexivity | exact Hlt].
    + apply Qltb_false in Hlt.
      eexists. cbn [record_of]. store_reads.
      split; [reflexivity|]. right.
      split; [reflexivity|]. split; [reflexivity | exact Hlt].
  - intros fuel synapse T deserialize w st v w' st' Hstream.
    unfold MockDendrite.call_stream in Hstream.
    destruct (time_time env w) as [t w1] eqn:Htime. cbn [fst].
    destruct (MockStreamMiner.forward env _ (obj st synapse) t)
      as [token_streamer|]; [|discriminate].
    destruct (MockDendrite.while_loop env fuel token_streamer t T synapse _)
      as [l|] eqn:Hloop; [|discriminate].
    injection Hstream as _ <- <-.
    apply while_loop_finalized in Hloop; [|reflexivity].
    destruct Hloop as [_ [(Hc & _ & Hp) | (Hc & _ & Hp)]].
    + right. split; assumption.
    + left. split; assumption.
Qed.

Lemma process_time_of_records_witness :
  exists v w' st',
    MockDendrite.call_stream slow_clock (fun s => completion s) 10 0 1 false
      origin (one_request StreamPromptingSynapse "a") = Returned v w' st' /\
    status_code (dendrite (obj st' 0)) = Some 200%Z /\
    process_time (dendrite (obj st' 0))
    = Some (str (now w' - fst (time_time slow_clock origin))).
Proof.
  destruct (MockDendrite.call_stream slow_clock (fun s => completion s) 10 0 1
              false origin (one_request StreamPromptingSynapse "a"))
    as [v w' st'| |] eqn:Hrun; [|vm_compute in Hrun; discriminate ..].
  exists v, w', st'. split; [reflexivity|].
  destruct (proj2 (process_time_of_records slow_clock (fun s => completion s))
              10%nat 0%nat 1%Q false origin
              (one_request StreamPromptingSynapse "a")
              v w' st' Hrun) as [[Hc Hp] | [Hc Hp]].
  - exfalso. vm_compute in Hrun. injection Hrun as _ _ <-.
    vm_compute in Hc. discriminate.
  - split; assumption.
Defined.

(** ** The fan-out, target by target *)

(** C1 (the code departs from it). With [run_async = false] and at least
    one target, [forward] raises [TypeError] before anything is queried: the
    list comprehension calls [single_axon_response] with the target alone,
    and the function takes the index and the target. No result is
    produced. *)
Theorem forward_sequential_raises (env : Env) {D : Type}
    (deserialize_ : Synapse -> D)
    (preprocess : AxonInfo -> Synapse -> Q -> Synapse)
    (axons : list Target) (synapse : loc) (T : Q)
    (deserialize streaming : bool) (w : World) (st : Store) :
  class (obj st synapse)
  = (if streaming then StreamPromptingSynapse else PromptingSynapse) ->
  axons <> [] ->
  MockDendrite.forward env deserialize_ preprocess axons synapse T
    deserialize false streaming w st
  = Raised TypeError w st.
Proof.
  intros Hclass Hne. unfold MockDendrite.forward, isinstance.
  rewrite Hclass.
  destruct axons as [|target_axon axons]; [congruence|].
  destruct streaming; reflexivity.
Qed.

Lemma forward_sequential_raises_witness :
  MockDendrite.forward steady (fun s => completion s) address_to
    [miner_at 1; miner_at 2; miner_at 3] 0 12 true false false origin
    (one_request PromptingSynapse "hello")
  = Raised TypeError origin (one_request PromptingSynapse "hello").
Proof.
  apply forward_sequential_raises; [reflexivity | discriminate].
Defined.

(** * Further properties *)

(** ** The token streamer, whatever the clock *)

Section StreamerInvariants.
Context (env : Env) (self : MockStreamMiner.t) (start_time : Q).

Let T := MockStreamMiner.timeout self.
Let batch := MockStreamMiner.streaming_batch_size self.

(** What one turn of the loop of [_forward] does with a token. *)
Lemma _forward_loop_cases token rest buffer w :
  let it := MockStreamMiner._forward_loop env self start_time
              (token :: rest) buffer w in
  (exists e w', it = Stopped (Some e) w') \/
  (Z.of_nat (length (buffer ++ [token])) = batch /\
   it = Yielded (buffer ++ [token], true) (batch_world env T w)
          (fun w' => MockStreamMiner._forward_loop env self start_time
                       rest [] w')) \/
  (Z.of_nat (length (buffer ++ [token])) <> batch /\
   it = MockStreamMiner._forward_loop env self start_time rest
          (buffer ++ [token]) (tick env w)).
Proof.
  cbv zeta.
  destruct (Qlt_le_dec T (now w + latency env (reads w) - start_time))
    as [Hlt | Hle].
  { left. rewrite _forward_loop_timeout by exact Hlt. eauto. }
  destruct (Z.eq_dec (Z.of_nat (length (buffer ++ [token]))) batch)
    as [Hb | Hb].
  2:{ right; right. split; [exact Hb|]. apply _forward_loop_next; assumption. }
  destruct (Qlt_le_dec (batch_delay env T (draws w)) 0) as [Hneg | Hpos].
  2:{ right; left. split; [exact Hb|]. apply _forward_loop_batch; assumption. }
  left. apply Qgtb_false in Hle. apply Z.eqb_eq in Hb. apply Qltb_true in Hneg.
  simpl. fold T batch. rewrite Hle, Hb.
  unfold time_sleep, batch_delay in *. simpl. rewrite Hneg. eauto.
Qed.

(** The tokens the streamer has yielded are, in order, the first tokens it
    was given. *)
Lemma chunks_prefix tokens buffer w :
  concat (map fst (chunks (MockStreamMiner._forward_loop env self start_time
                             tokens buffer w)))
  `prefix_of` buffer ++ tokens.
Proof.
  revert buffer w. induction tokens as [|token rest IH]; intros buffer w.
  - rewrite chunks_end. destruct buffer; simpl.
    + apply prefix_nil.
    + rewrite !app_nil_r. reflexivity.
  - destruct (_forward_loop_cases token rest buffer w)
      as [(e & w' & ->) | [[_ ->] | [_ ->]]].
    + apply prefix_nil.
    + cbn [chunks map concat fst].
      replace (buffer ++ token :: rest) with ((buffer ++ [token]) ++ rest)
        by (rewrite <- app_assoc; reflexivity).
      apply prefix_app, (IH [] _).
    + replace (buffer ++ token :: rest) with ((buffer ++ [token]) ++ rest)
        by (rewrite <- app_assoc; reflexivity).
      apply IH.
Qed.

(** A streamer that ends without an error has yielded every token. *)
Lemma chunks_complete tokens buffer w :
  logged_error (MockStreamMiner._forward_loop env self start_time
                  tokens buffer w) = None ->
  concat (map fst (chunks (MockStreamMiner._forward_loop env self start_time
                             tokens buffer w)))
  = buffer ++ tokens.
Proof.
  revert buffer w. induction tokens as [|token rest IH]; intros buffer w.
  - intros _. rewrite chunks_end. destruct buffer; simpl.
    + reflexivity.
    + rewrite !app_nil_r. reflexivity.
  - destruct (_forward_loop_cases token rest buffer w)
      as [(e & w' & ->) | [[_ ->] | [_ ->]]].
    + discriminate.
    + cbn [chunks logged_error map concat fst]. intros Hlog.
      rewrite (IH [] _ Hlog). rewrite <- app_assoc. reflexivity.
    + intros Hlog. rewrite (IH _ _ Hlog). rewrite <- app_assoc. reflexivity.
Qed.

(** A streamer that ends on an error has lost at least one token. *)
Lemma chunks_incomplete tokens buffer w e :
  logged_error (MockStreamMiner._forward_loop env self start_time
                  tokens buffer w) = Some e ->
  (length (concat (map fst (chunks (MockStreamMiner._forward_loop env self
                                      start_time tokens buffer w))))
   < length (buffer ++ tokens))%nat.
Proof.
  revert buffer w. induction tokens as [|token rest IH]; intros buffer w.
  - destruct buffer; discriminate.
  - destruct (_forward_loop_cases token rest buffer w)
      as [(e' & w' & ->) | [[_ ->] | [_ ->]]].
    + intros _. simpl. rewrite length_app. simpl. lia.
    + cbn [chunks logged_error map concat fst]. intros Hlog.
      specialize (IH [] _ Hlog). rewrite !length_app in *. simpl in *. lia.
    + intros Hlog. specialize (IH _ _ Hlog).
      rewrite !length_app in *. simpl in *. lia.
Qed.

(** The chunks flagged [more_coming] have the size of the batch, no chunk
    is empty, and an unflagged chunk is the last one. *)
Lemma chunks_shape tokens buffer w :
  let cs := chunks (MockStreamMiner._forward_loop env self start_time
                      tokens buffer w) in
  (forall b, (b, true) ∈ cs -> Z.of_nat (length b) = batch) /\
  (forall c, c ∈ cs -> fst c <> []) /\
  (forall i b, cs !! i = Some (b, false) -> S i = length cs).
Proof.
  revert buffer w. induction tokens as [|token rest IH]; intros buffer w.
  - cbv zeta. rewrite chunks_end. destruct buffer as [|t buffer].
    + repeat split; intros *; intros H; inversion H.
    + repeat split.
      * intros b Hb. apply list_elem_of_singleton in Hb. discriminate.
      * intros c Hc. apply list_elem_of_singleton in Hc. subst c. discriminate.
      * intros [|i] b Hi; [reflexivity|]. simpl in Hi.
        rewrite lookup_nil in Hi. discriminate.
  - cbv zeta. destruct (_forward_loop_cases token rest buffer w)
      as [(e & w' & ->) | [[Hb ->] | [_ ->]]].
    + simpl. repeat split; intros *; intros H; inversion H.
    + cbn [chunks]. destruct (IH [] (batch_world env T w)) as (IH1 & IH2 & IH3).
      repeat split.
      * intros b Hin. apply elem_of_cons in Hin as [Heq | Hin].
        -- injection Heq as ->. exact Hb.
        -- apply IH1, Hin.
      * intros c Hin. apply elem_of_cons in Hin as [-> | Hin].
        -- simpl. destruct buffer; discriminate.
        -- apply IH2, Hin.
      * intros [|i] b Hi; [discriminate|]. simpl in Hi. simpl.
        f_equal. apply (IH3 i b Hi).
    + apply IH.
Qed.
End StreamerInvariants.

(** ** Tokens *)

Lemma append_cons (c : ascii) (s t : string) :
  String c s +:+ t = String c (s +:+ t).
Proof. reflexivity. Qed.

Lemma append_nil_r (s : string) : s +:+ "" = s.
Proof.
  induction s as [|c s IH]; [reflexivity|].
  rewrite append_cons, IH. reflexivity.
Qed.

Lemma append_assoc (a b c : string) : (a +:+ b) +:+ c = a +:+ (b +:+ c).
Proof.
  induction a as [|x a IH]; [reflexivity|].
  rewrite !append_cons, IH. reflexivity.
Qed.

Lemma append_nonempty (s : string) (c : ascii) : s +:+ String c "" <> "".
Proof. destruct s; discriminate. Qed.

Lemma spaceless_app (a b : string) :
  spaceless (a +:+ b) = spaceless a && spaceless b.
Proof.
  induction a as [|x a IH]; [reflexivity|].
  rewrite append_cons. simpl. rewrite IH. apply andb_assoc.
Qed.

Lemma split_from_blank (cur s : string) :
  blank_string s = true ->
  split_from cur s = match cur with EmptyString => [] | _ => [cur] end.
Proof.
  revert cur. induction s as [|c s IH]; intros cur H; [reflexivity|].
  simpl in H. apply andb_true_iff in H as [Hc Hs].
  simpl. rewrite Hc. destruct cur; rewrite (IH "" Hs); reflexivity.
Qed.

Lemma split_from_cons (cur s : string) :
  cur <> "" -> split_from cur s <> [].
Proof.
  revert cur. induction s as [|c s IH]; intros cur H; simpl.
  - destruct cur; congruence.
  - destruct (isspace c).
    + destruct cur; congruence.
    + apply IH, append_nonempty.
Qed.

Lemma split_from_tokens (cur s : string) :
  spaceless cur = true -> Forall is_token (split_from cur s).
Proof.
  revert cur. induction s as [|c s IH]; intros cur H; simpl.
  - destruct cur; constructor; [|constructor]. split; [discriminate | exact H].
  - destruct (isspace c) eqn:Hc.
    + destruct cur.
      * apply IH. reflexivity.
      * constructor; [split; [discriminate | exact H]|]. apply IH. reflexivity.
    + apply IH. rewrite spaceless_app, H. simpl. rewrite Hc. reflexivity.
Qed.

Lemma split_from_token (t cur rest : string) :
  spaceless t = true ->
  split_from cur (t +:+ rest) = split_from (cur +:+ t) rest.
Proof.
  revert cur. induction t as [|c t IH]; intros cur H.
  - rewrite append_nil_r. reflexivity.
  - simpl in H. apply andb_true_iff in H as [Hc Ht].
    apply negb_true_iff in Hc. rewrite append_cons. simpl. rewrite Hc.
    rewrite (IH _ Ht), append_assoc. reflexivity.
Qed.

(** X14. A prompt has no token exactly when it is made of whitespace
    only. *)
Theorem split_nil_iff_blank (s : string) :
  split s = [] <-> blank_string s = true.
Proof.
  unfold split. split.
  - induction s as [|c s IH]; [reflexivity|]. simpl.
    destruct (isspace c); [exact IH|].
    intros H. exfalso. revert H. apply split_from_cons. discriminate.
  - intros H. rewrite split_from_blank by exact H. reflexivity.
Qed.

(** X15. What [split] returns are tokens: none is empty, none holds a
    whitespace character. *)
Theorem split_gives_tokens (s : string) : Forall is_token (split s).
Proof. apply split_from_tokens. reflexivity. Qed.

(** X16. Joining tokens with single spaces and splitting again gives the
    tokens back. *)
Theorem split_join (l : list string) :
  Forall is_token l -> split (join l) = l.
Proof.
  unfold split, join. induction l as [|t l IH]; intros H; [reflexivity|].
  inversion H as [|? ? [Hne Hsp] Hl]; subst.
  destruct l as [|t2 l].
  - simpl. rewrite <- (append_nil_r t) at 1.
    rewrite split_from_token by exact Hsp. change ("" +:+ t) with t.
    simpl. destruct t; congruence.
  - change (String.concat " " (t :: t2 :: l))
      with (t +:+ (" " +:+ String.concat " " (t2 :: l))).
    rewrite split_from_token by exact Hsp.
    change ("" +:+ t) with t. rewrite append_cons.
    change ("" +:+ String.concat " " (t2 :: l))
      with (String.concat " " (t2 :: l)).
    change (split_from t (String " " (String.concat " " (t2 :: l))))
      with (match t with
            | EmptyString => split_from "" (String.concat " " (t2 :: l))
            | _ => t :: split_from "" (String.concat " " (t2 :: l))
            end).
    rewrite (IH Hl). destruct t; congruence.
Qed.

Lemma split_join_witness :
  split (join ["Mock"; "llm"; "output"]) = ["Mock"; "llm"; "output"].
Proof.
  apply split_join. repeat constructor; discriminate.
Defined.

(** ** More on the token streamer *)

(** X1. Whatever the clock, the timeout and the batch size, the tokens a
    streamer yields are, in order and without a gap or a repetition, the
    first tokens of the prompt. *)
Theorem token_streamer_yields_prefix (env : Env) (self : MockStreamMiner.t)
    (prompt : string) (start_time : Q) (sample : bool) (w : World) :
  concat (map fst (chunks (MockStreamMiner._forward env self prompt
                             start_time sample w)))
  `prefix_of` split prompt.
Proof. apply (chunks_prefix env self start_time (split prompt) [] w). Qed.

(** X2. A streamer yields every token of the prompt exactly when it ends
    without having logged an error: a timeout, or a failed sleep, always
    costs tokens. *)
Theorem token_streamer_complete_iff_quiet (env : Env)
    (self : MockStreamMiner.t) (prompt : string) (start_time : Q)
    (sample : bool) (w : World) :
  logged_error (MockStreamMiner._forward env self prompt start_time sample w)
  = None <->
  concat (map fst (chunks (MockStreamMiner._forward env self prompt
                             start_time sample w)))
  = split prompt.
Proof.
  unfold MockStreamMiner._forward. split.
  - apply (chunks_complete env self start_time (split prompt) [] w).
  - intros Hall.
    destruct (logged_error _) as [e|] eqn:Hlog; [|reflexivity].
    apply (chunks_incomplete env self start_time (split prompt) [] w) in Hlog.
    rewrite Hall in Hlog. simpl in Hlog. lia.
Qed.

(** X3. Every chunk flagged [more_coming] holds exactly
    [streaming_batch_size] tokens, no chunk is empty, and a chunk that is
    not flagged is the last one of its streamer. *)
Theorem token_streamer_chunk_shape (env : Env) (self : MockStreamMiner.t)
    (prompt : string) (start_time : Q) (sample : bool) (w : World) :
  let cs := chunks (MockStreamMiner._forward env self prompt start_time
                      sample w) in
  (forall b, (b, true) ∈ cs ->
     Z.of_nat (length b) = MockStreamMiner.streaming_batch_size self) /\
  (forall c, c ∈ cs -> fst c <> []) /\
  (forall i b, cs !! i = Some (b, false) -> S i = length cs).
Proof. apply (chunks_shape env self start_time (split prompt) [] w). Qed.

(** ** More on the streaming call *)

Section ShortPrompt.
Context (env : Env) (self : MockStreamMiner.t) (start_time : Q).

Let T := MockStreamMiner.timeout self.
Let batch := MockStreamMiner.streaming_batch_size self.

(** Tokens that do not fill a batch, read while the clock stays within the
    timeout, end up in one final chunk. *)
Lemma _forward_loop_short tokens buffer w :
  (Z.of_nat (length buffer + length tokens) < batch)%Z ->
  (forall j, (j < length tokens)%nat ->
     (now (ticks env (S j) w) - start_time <= T)%Q) ->
  MockStreamMiner._forward_loop env self start_time tokens buffer w
  = match buffer ++ tokens with
    | [] => Stopped None w
    | _ => Yielded (buffer ++ tokens, false) (ticks env (length tokens) w)
             (fun w' => Stopped None w')
    end.
Proof.
  revert buffer w. induction tokens as [|token rest IH]; intros buffer w Hb Ht.
  - rewrite app_nil_r. destruct buffer; reflexivity.
  - rewrite _forward_loop_next.
    + rewrite IH.
      * rewrite <- app_assoc. destruct buffer; reflexivity.
      * rewrite length_app. simpl in *. lia.
      * intros j Hj. apply (Ht (S j)). simpl. lia.
    + apply (Ht 0%nat). simpl. lia.
    + rewrite length_app. simpl in *. fold batch. lia.
Qed.
End ShortPrompt.

(** X4. A prompt of one to eleven tokens whose streamer reads the clock
    within the timeout every time is echoed: the call returns, after two
    more readings of the clock than the prompt has tokens, a record with
    the status 200 "OK", the tokens of the prompt joined by single spaces as
    completion, and the time elapsed as [process_time]. *)
Theorem call_stream_short_prompt (env : Env) {D : Type}
    (deserialize_ : Synapse -> D) (fuel : nat) (synapse : loc) (T : Q)
    (deserialize : bool) (w : World) (st : Store) (prompt : string) :
  list.last (messages (obj st synapse)) = Some prompt ->
  split prompt <> [] ->
  (length (split prompt) < 12)%nat ->
  (forall j, (j < length (split prompt))%nat ->
     (now (ticks env (S (S j)) w) - now (ticks env 1 w) <= T)%Q) ->
  exists v st',
    MockDendrite.call_stream env deserialize_ (S fuel) synapse T deserialize
      w st
    = Returned v (ticks env (S (S (length (split prompt)))) w) st' /\
    completion (obj st' synapse) = join (split prompt) /\
    status_code (dendrite (obj st' synapse)) = Some 200%Z /\
    status_message (dendrite (obj st' synapse)) = Some "OK" /\
    process_time (dendrite (obj st' synapse))
    = Some (str (now (ticks env (S (S (length (split prompt)))) w)
                 - now (ticks env 1 w))) /\
    (forall r, r <> synapse -> obj st' r = obj st r).
Proof.
  intros Hlast Hne Hlen Hclock.
  unfold MockDendrite.call_stream.
  change (time_time env w) with (now (ticks env 1 w), ticks env 1 w).
  cbv iota beta. unfold MockStreamMiner.forward. rewrite Hlast.
  cbn [MockDendrite.while_loop MockDendrite.continue_streaming
       MockDendrite.world MockDendrite.response_buffer MockDendrite.store].
  unfold MockStreamMiner._forward.
  rewrite _forward_loop_short;
    [| simpl; lia | intros j Hj; apply (Hclock j Hj)].
  rewrite app_nil_l.
  destruct (split prompt) as [|token rest] eqn:Hsplit; [congruence|].
  cbn [MockDendrite.for_loop negb app].
  set (w1 := ticks env (length (token :: rest)) (ticks env 1 w)).
  change (time_time env w1)
    with (now (ticks env 1 w1), ticks env 1 w1).
  cbv iota beta.
  replace (ticks env 1 w1)
    with (ticks env (S (S (length (token :: rest)))) w).
  2:{ subst w1. clear. generalize (token :: rest). intros l.
      change (ticks env (S (S (length l))) w)
        with (ticks env (S (length l)) (ticks env 1 w)).
      generalize (ticks env 1 w). induction l as [|x l IH]; intros w0.
      - reflexivity.
      - simpl length. change (ticks env (S (S (length l))) w0)
          with (ticks env (S (length l)) (ticks env 1 w0)).
        rewrite IH. reflexivity. }
  destruct fuel;
    (cbn [MockDendrite.while_loop MockDendrite.continue_streaming
          MockDendrite.world MockDendrite.store];
     eexists _, _; split; [reflexivity|]; store_reads;
     repeat split; intros r Hr; store_reads; reflexivity).
Qed.

Lemma call_stream_short_prompt_witness :
  exists v st',
    MockDendrite.call_stream steady (fun s => completion s) 1 0 12 false
      origin (one_request StreamPromptingSynapse "  hello   world ")
    = Returned v (ticks steady 4 origin) st' /\
    completion (obj st' 0) = "hello world".
Proof.
  destruct (call_stream_short_prompt steady (fun s => completion s) 0 0 12
              false origin (one_request StreamPromptingSynapse
                              "  hello   world ") "  hello   world ")
    as (v & st' & Hrun & Hc & _).
  - reflexivity.
  - discriminate.
  - vm_compute. lia.
  - intros j Hj. do 2 (destruct j as [|j]; [vm_compute; discriminate|]).
    vm_compute in Hj. lia.
  - exists v, st'. split; [exact Hrun | exact Hc].
Defined.

(** X5. With an empty list of messages [call_stream] raises [IndexError]
    after its first reading of the clock, without touching any synapse. *)
Theorem call_stream_no_message (env : Env) {D : Type}
    (deserialize_ : Synapse -> D) (fuel : nat) (synapse : loc) (T : Q)
    (deserialize : bool) (w : World) (st : Store) :
  messages (obj st synapse) = [] ->
  MockDendrite.call_stream env deserialize_ fuel synapse T deserialize w st
  = Raised IndexError (ticks env 1 w) st.
Proof.
  intros Hm. unfold MockDendrite.call_stream.
  change (time_time env w) with (now (ticks env 1 w), ticks env 1 w).
  cbv iota beta. unfold MockStreamMiner.forward. rewrite Hm. reflexivity.
Qed.

Lemma call_stream_no_message_witness :
  MockDendrite.call_stream steady (fun s => completion s) 5 0 12 false origin
    no_message
  = Raised IndexError (ticks steady 1 origin) no_message.
Proof. apply call_stream_no_message. reflexivity. Defined.

(** X6. A prompt of whitespace only makes [call_stream] loop for ever,
    whatever the clock and the timeout. *)
Theorem call_stream_blank_prompt_hangs (env : Env) {D : Type}
    (deserialize_ : Synapse -> D) (fuel : nat) (synapse : loc) (T : Q)
    (deserialize : bool) (w : World) (st : Store) (prompt : string) :
  list.last (messages (obj st synapse)) = Some prompt ->
  blank_string prompt = true ->
  MockDendrite.call_stream env deserialize_ fuel synapse T deserialize w st
  = OutOfFuel.
Proof.
  intros Hlast Hblank.
  apply (call_stream_no_token env deserialize_ fuel synapse T deserialize
           w st prompt Hlast).
  unfold split. rewrite split_from_blank by exact Hblank. reflexivity.
Qed.

Lemma call_stream_blank_prompt_hangs_witness :
  MockDendrite.call_stream slow_clock (fun s => completion s) 1000 0 1 false
    origin (one_request StreamPromptingSynapse "   ")
  = OutOfFuel.
Proof.
  apply (call_stream_blank_prompt_hangs slow_clock (fun s => completion s)
           1000 0 1 false origin
           (one_request StreamPromptingSynapse "   ") "   ");
    reflexivity.
Defined.

Section PastDeadline.
Context (env : Env) (T : Q) (synapse : loc) (prompt token : string)
  (rest : list string) (start_time : Q).
Hypothesis Hlat : forall k, (0 <= latency env k)%Q.
Hypothesis Hsplit : split prompt = token :: rest.

(** Once the next reading of the clock is past the timeout, every turn of
    the [while] loop ends in the timeout branch of a new streamer, which
    yields nothing. *)
Lemma while_loop_past_deadline (fuel : nat) (l : MockDendrite.Loop) :
  MockDendrite.continue_streaming l = true ->
  (T < now (MockDendrite.world l)
       + latency env (reads (MockDendrite.world l)) - start_time)%Q ->
  MockDendrite.while_loop env fuel
    (MockStreamMiner._forward env
       {| MockStreamMiner.streaming_batch_size := 12;
          MockStreamMiner.timeout := T |} prompt start_time)
    start_time T synapse l
  = None.
Proof.
  revert l. induction fuel as [|fuel IH]; intros l Hc Hd.
  - simpl. rewrite Hc. reflexivity.
  - cbn [MockDendrite.while_loop]. rewrite Hc.
    unfold MockStreamMiner._forward at 2. rewrite Hsplit.
    rewrite _forward_loop_timeout by exact Hd.
    cbn [MockDendrite.for_loop]. apply IH.
    + reflexivity.
    + cbn [MockDendrite.world]. unfold tick. simpl.
      pose proof (Hlat (S (reads (MockDendrite.world l)))).
      pose proof (Hlat (S (S (reads (MockDendrite.world l))))).
      lra.
Qed.
End PastDeadline.

(** X7. On a monotone clock, when the first check of the streamer already
    finds the timeout exceeded (the second reading of the clock comes more
    than [timeout] after the first), a call with a prompt of at least one
    token never returns: each streamer stops in its timeout branch before
    yielding, and the driver only looks at the clock on a chunk. *)
Theorem call_stream_hangs_past_deadline (env : Env) {D : Type}
    (deserialize_ : Synapse -> D) (fuel : nat) (synapse : loc) (T : Q)
    (deserialize : bool) (w : World) (st : Store) (prompt : string) :
  (forall k, (0 <= latency env k)%Q) ->
  list.last (messages (obj st synapse)) = Some prompt ->
  split prompt <> [] ->
  (T < latency env (S (reads w)))%Q ->
  MockDendrite.call_stream env deserialize_ fuel synapse T deserialize w st
  = OutOfFuel.
Proof.
  intros Hlat Hlast Hne Hd. unfold MockDendrite.call_stream.
  change (time_time env w) with (now (ticks env 1 w), ticks env 1 w).
  cbv iota beta. unfold MockStreamMiner.forward. rewrite Hlast.
  destruct (split prompt) as [|token rest] eqn:Hsplit; [congruence|].
  rewrite (while_loop_past_deadline env T synapse prompt token rest _
             Hlat Hsplit); [reflexivity | reflexivity |].
  cbn [MockDendrite.world]. simpl. lra.
Qed.

Lemma call_stream_hangs_past_deadline_witness :
  MockDendrite.call_stream slow_clock (fun s => completion s) 1000 0 (1 # 2)
    false origin (one_request StreamPromptingSynapse "hello world")
  = OutOfFuel.
Proof.
  apply (call_stream_hangs_past_deadline slow_clock (fun s => completion s)
           1000 0 (1 # 2) false origin
           (one_request StreamPromptingSynapse "hello world") "hello world").
  - intros k. discriminate.
  - reflexivity.
  - discriminate.
  - reflexivity.
Defined.

(** ** More on the unary call *)

(** X8. With a timeout above zero the unary call succeeds exactly when the
    value of [random()] behind its draw is below one half, and times out
    otherwise. *)
Theorem call_succeeds_iff_low_draw (env : Env) {D : Type}
    (deserialize_ : Synapse -> D) (i : Z) (start_time : Q) (synapse : loc)
    (T : Q) (deserialize : bool) (w : World) (st : Store) :
  (0 < T)%Q ->
  exists s,
    record_of (MockDendrite.call env deserialize_ i start_time synapse T
                 deserialize w st) synapse = Some s /\
    ((random env (draws w) < 1 # 2)%Q ->
       status_code (dendrite s) = Some 200%Z) /\
    ((1 # 2 <= random env (draws w))%Q ->
       status_code (dendrite s) = Some 408%Z) /\
    unary_record i s.
Proof.
  intros HT. unfold MockDendrite.call, random_uniform.
  destruct (Qltb _ T) eqn:Hlt.
  - apply Qltb_true in Hlt. destruct (time_time env _) as [t w2].
    eexists. cbn [record_of]. store_reads. split; [reflexivity|].
    split; [reflexivity|]. split.
    + intros Hge. exfalso. nra.
    + left. split; reflexivity.
  - apply Qltb_false in Hlt.
    eexists. cbn [record_of]. store_reads. split; [reflexivity|]. split.
    + intros Hlow. exfalso. nra.
    + split; [reflexivity|]. right. split; reflexivity.
Qed.

Lemma call_succeeds_iff_low_draw_witness :
  exists s,
    record_of (MockDendrite.call steady (fun s => completion s) 7 0 0 12
                 false origin (one_request PromptingSynapse "hello")) 0
    = Some s /\
    status_code (dendrite s) = Some 408%Z.
Proof.
  destruct (call_succeeds_iff_low_draw steady (fun s => completion s) 7 0 0
              12 false origin (one_request PromptingSynapse "hello"))
    as (s & Hs & _ & H408 & _); [reflexivity|].
  exists s. split; [exact Hs|]. apply H408. discriminate.
Defined.

(** ** More on the fan-out *)

Lemma ticks_draws (env : Env) (n : nat) (w : World) :
  draws (ticks env n w) = draws w.
Proof.
  revert w. induction n as [|n IH]; intros w; [reflexivity|].
  simpl. rewrite IH. reflexivity.
Qed.

Lemma ticks_succ (env : Env) (n : nat) (w : World) :
  ticks env (S n) w = ticks env n (ticks env 1 w).
Proof. reflexivity. Qed.

Section FanOut.
Context (env : Env) {D : Type} (deserialize_ : Synapse -> D)
  (preprocess : AxonInfo -> Synapse -> Q -> Synapse)
  (synapse : loc) (T : Q) (deserialize : bool).

(** What a unary call does to the store, whatever it draws. *)
Lemma call_effect (i : Z) (start_time : Q) (s : loc) (w : World)
    (st : Store) :
  exists w' st',
    MockDendrite.call env deserialize_ i start_time s T deserialize w st
    = Returned (MockDendrite.deserialize_if deserialize_ deserialize s st')
        w' st' /\
    fresh st' = fresh st /\
    (forall r, r <> s -> obj st' r = obj st r) /\
    unary_record i (obj st' s).
Proof.
  unfold MockDendrite.call.
  destruct (random_uniform env 0 (T * 2) w) as [p w1].
  destruct (Qltb p T); [destruct (time_time env w1) as [t w2]|];
    (eexists _, _; split; [reflexivity|]; split; [reflexivity|]; split;
     [intros r Hr; store_reads; reflexivity|]).
  - left. store_reads. split; reflexivity.
  - right. store_reads. split; reflexivity.
Qed.

(** One target of the unary path: a new object, filled by [call]. *)
Lemma single_axon_response_unary (i : nat) (target_axon : Target)
    (w : World) (st : Store) :
  exists w' st',
    MockDendrite.single_axon_response env deserialize_ preprocess synapse T
      deserialize false i target_axon w st
    = Returned (MockDendrite.deserialize_if deserialize_ deserialize
                  (fresh st) st') w' st' /\
    fresh st' = S (fresh st) /\
    (forall r, (r < fresh st)%nat -> obj st' r = obj st r) /\
    unary_record (Z.of_nat i) (obj st' (fresh st)).
Proof.
  unfold MockDendrite.single_axon_response, copy.
  destruct (time_time env w) as [start_time w1].
  match goal with
  | |- context [MockDendrite.call _ _ _ _ ?s _ _ ?w ?st] =>
      destruct (call_effect (Z.of_nat i) start_time s w st)
        as (w' & st' & Hcall & Hfresh & Hframe & Hrec)
  end.
  exists w', st'. split; [exact Hcall|]. split; [exact Hfresh|].
  split; [|exact Hrec].
  intros r Hr. rewrite Hframe by lia. rewrite obj_assign_ne by lia.
  simpl. apply fn_lookup_insert_ne. lia.
Qed.

(** The concurrent unary path over the targets [axons], numbered from
    [k]. *)
Lemma gather_unary (axons : list Target) (k : nat) (w : World) (st : Store) :
  exists vs w' st',
    MockDendrite.await_all
      (imap (fun i target_axon =>
               MockDendrite.apply_single_axon_response env deserialize_
                 preprocess synapse T deserialize false
                 [AInt (k + i); ATarget target_axon]) axons) w st
    = Returned vs w' st' /\
    length vs = length axons /\
    fresh st' = (fresh st + length axons)%nat /\
    (forall r, (r < fresh st)%nat -> obj st' r = obj st r) /\
    (forall j, (j < length axons)%nat ->
       unary_record (Z.of_nat (k + j)) (obj st' (fresh st + j)) /\
       vs !! j = Some (MockDendrite.deserialize_if deserialize_ deserialize
                         (fresh st + j) st')).
Proof.
  revert k w st. induction axons as [|a axons IH]; intros k w st.
  - exists [], w, st. split; [reflexivity|]. split; [reflexivity|].
    split; [simpl; lia|].
    split; [reflexivity|]. intros j Hj. simpl in Hj. lia.
  - rewrite imap_cons. cbn [MockDendrite.await_all].
    cbn [MockDendrite.apply_single_axon_response].
    destruct (single_axon_response_unary (k + 0) a w st)
      as (w1 & st1 & -> & Hf1 & Hframe1 & Hrec1).
    rewrite (imap_ext _
      (fun i target_axon =>
         MockDendrite.apply_single_axon_response env deserialize_
           preprocess synapse T deserialize false
           [AInt (S k + i); ATarget target_axon]));
      [|intros i x _; simpl; rewrite Nat.add_succ_r; reflexivity].
    destruct (IH (S k) w1 st1)
      as (vs & w' & st' & -> & Hlen & Hf & Hframe & Hrecs).
    exists (MockDendrite.deserialize_if deserialize_ deserialize (fresh st) st1
            :: vs), w', st'.
    split; [reflexivity|]. split; [simpl; lia|]. split; [simpl; lia|].
    split; [intros r Hr; rewrite Hframe by lia; apply Hframe1; exact Hr|].
    intros [|j] Hj.
    + rewrite !Nat.add_0_r in *. rewrite Hframe by lia.
      split; [exact Hrec1|]. simpl. f_equal.
      unfold MockDendrite.deserialize_if. destruct deserialize; [|reflexivity].
      rewrite Hframe by lia. reflexivity.
    + simpl in Hj. destruct (Hrecs j) as [Hr Hv]; [lia|].
      rewrite Hf1 in Hr, Hv.
      replace (fresh st + S j)%nat with (S (fresh st) + j)%nat by lia.
      replace (k + S j)%nat with (S k + j)%nat by lia.
      split; [exact Hr | exact Hv].
Qed.

(** One target of the streaming path: a new object, addressed to the
    target, and a stream that is not started. *)
Lemma single_axon_response_stream (i : nat) (target_axon : Target)
    (w : World) (st : Store) :
  MockDendrite.single_axon_response env deserialize_ preprocess synapse T
    deserialize true i target_axon w st
  = Returned (MockDendrite.VStream (fresh st) T false) (ticks env 1 w)
      (assign (fresh st)
         (fun x => preprocess (target_info target_axon) x T)
         (snd (copy synapse st))).
Proof. reflexivity. Qed.

Lemma gather_stream (axons : list Target) (k : nat) (w : World) (st : Store) :
  (synapse < fresh st)%nat ->
  exists st',
    MockDendrite.await_all
      (imap (fun i target_axon =>
               MockDendrite.apply_single_axon_response env deserialize_
                 preprocess synapse T deserialize true
                 [AInt (k + i); ATarget target_axon]) axons) w st
    = Returned (imap (fun j _ => MockDendrite.VStream (fresh st + j) T false)
                  axons)
        (ticks env (length axons) w) st' /\
    fresh st' = (fresh st + length axons)%nat /\
    (forall r, (r < fresh st)%nat -> obj st' r = obj st r) /\
    (forall j a, axons !! j = Some a ->
       obj st' (fresh st + j) = preprocess (target_info a) (obj st synapse) T).
Proof.
  revert k w st. induction axons as [|a axons IH]; intros k w st Hs.
  - exists st. split; [reflexivity|]. split; [simpl; lia|].
    split; [reflexivity|]. intros j x Hj. rewrite lookup_nil in Hj.
    discriminate.
  - rewrite !imap_cons. cbn [MockDendrite.await_all].
    cbn [MockDendrite.apply_single_axon_response].
    rewrite single_axon_response_stream.
    set (st1 := assign (fresh st) _ (snd (copy synapse st))).
    assert (Hf1 : fresh st1 = S (fresh st)) by reflexivity.
    assert (Hframe1 : forall r, (r < fresh st)%nat -> obj st1 r = obj st r).
    { intros r Hr. subst st1. rewrite obj_assign_ne by lia. simpl.
      apply fn_lookup_insert_ne. lia. }
    assert (Hnew : obj st1 (fresh st)
                   = preprocess (target_info a) (obj st synapse) T).
    { subst st1. rewrite obj_assign. simpl. rewrite fn_lookup_insert.
      reflexivity. }
    rewrite (imap_ext _
      (fun i target_axon =>
         MockDendrite.apply_single_axon_response env deserialize_
           preprocess synapse T deserialize true
           [AInt (S k + i); ATarget target_axon]));
      [|intros i x _; simpl; rewrite Nat.add_succ_r; reflexivity].
    destruct (IH (S k) (ticks env 1 w) st1) as (st' & -> & Hf & Hframe & Hobj);
      [rewrite Hf1; lia|].
    exists st'. split.
    { rewrite Nat.add_0_r, Hf1. f_equal. f_equal. apply imap_ext.
      intros i x _. simpl. f_equal. lia. }
    split; [rewrite Hf, Hf1; simpl; lia|].
    split; [intros r Hr; rewrite Hframe by lia; apply Hframe1; exact Hr|].
    intros [|j] x Hj.
    + simpl in Hj. injection Hj as <-. rewrite Nat.add_0_r.
      rewrite Hframe by lia. exact Hnew.
    + simpl in Hj. rewrite (Hframe1 synapse Hs) in Hobj.
      replace (fresh st + S j)%nat with (fresh st1 + j)%nat by lia.
      apply Hobj, Hj.
Qed.
End FanOut.

(** X9. With [run_async = true] the unary fan-out returns one result per
    target, in the order of the targets: the result of index [j] is the
    [j]-th new object of the store (or its deserialization), and that
    object holds the record of a call for the index [j]. The objects that
    existed before, the request among them, are unchanged. *)
Theorem forward_concurrent_unary (env : Env) {D : Type}
    (deserialize_ : Synapse -> D)
    (preprocess : AxonInfo -> Synapse -> Q -> Synapse)
    (axons : list Target) (synapse : loc) (T : Q) (deserialize : bool)
    (w : World) (st : Store) :
  class (obj st synapse) = PromptingSynapse ->
  exists vs w' st',
    MockDendrite.forward env deserialize_ preprocess axons synapse T
      deserialize true false w st
    = Returned vs w' st' /\
    length vs = length axons /\
    fresh st' = (fresh st + length axons)%nat /\
    (forall r, (r < fresh st)%nat -> obj st' r = obj st r) /\
    (forall j, (j < length axons)%nat ->
       unary_record (Z.of_nat j) (obj st' (fresh st + j)) /\
       vs !! j = Some (MockDendrite.deserialize_if deserialize_ deserialize
                         (fresh st + j) st')).
Proof.
  intros Hclass. unfold MockDendrite.forward, isinstance. rewrite Hclass.
  cbn [SynapseClass_eqb]. unfold MockDendrite.query_all_axons. cbn [negb].
  exact (gather_unary env deserialize_ preprocess synapse T deserialize
           axons 0 w st).
Qed.

Lemma forward_concurrent_unary_witness :
  exists vs w' st',
    MockDendrite.forward steady (fun s => completion s) address_to
      [miner_at 1; miner_at 2; miner_at 3] 0 12 false true false origin
      (one_request PromptingSynapse "hello")
    = Returned vs w' st' /\
    vs = [MockDendrite.VSynapse 1; MockDendrite.VSynapse 2;
          MockDendrite.VSynapse 3].
Proof.
  destruct (forward_concurrent_unary steady (fun s => completion s) address_to
              [miner_at 1; miner_at 2; miner_at 3] 0 12 false origin
              (one_request PromptingSynapse "hello"))
    as (vs & w' & st' & Hrun & Hlen & _ & _ & Hrec); [reflexivity|].
  exists vs, w', st'. split; [exact Hrun|].
  destruct vs as [|v0 [|v1 [|v2 [|? ?]]]]; try discriminate.
  destruct (Hrec 0%nat) as [_ H0]; [simpl; lia|].
  destruct (Hrec 1%nat) as [_ H1]; [simpl; lia|].
  destruct (Hrec 2%nat) as [_ H2]; [simpl; lia|].
  simpl in H0, H1, H2. congruence.
Defined.

(** X10. With [run_async = true] the streaming fan-out reads the clock once
    per target and draws nothing: no stream is started. It returns, in the
    order of the targets, one stream per target over a new object, which is
    the request as [preprocess_synapse_for_request] addresses it to that
    target, and always with [deserialize = False]. The objects that existed
    before are unchanged. *)
Theorem forward_concurrent_stream (env : Env) {D : Type}
    (deserialize_ : Synapse -> D)
    (preprocess : AxonInfo -> Synapse -> Q -> Synapse)
    (axons : list Target) (synapse : loc) (T : Q) (deserialize : bool)
    (w : World) (st : Store) :
  class (obj st synapse) = StreamPromptingSynapse ->
  (synapse < fresh st)%nat ->
  exists st',
    MockDendrite.forward env deserialize_ preprocess axons synapse T
      deserialize true true w st
    = Returned (imap (fun j _ => MockDendrite.VStream (fresh st + j) T false)
                  axons)
        (ticks env (length axons) w) st' /\
    draws (ticks env (length axons) w) = draws w /\
    fresh st' = (fresh st + length axons)%nat /\
    (forall r, (r < fresh st)%nat -> obj st' r = obj st r) /\
    (forall j a, axons !! j = Some a ->
       obj st' (fresh st + j) = preprocess (target_info a) (obj st synapse) T).
Proof.
  intros Hclass Hs. unfold MockDendrite.forward, isinstance. rewrite Hclass.
  cbn [SynapseClass_eqb]. unfold MockDendrite.query_all_axons. cbn [negb].
  destruct (gather_stream env deserialize_ preprocess synapse T deserialize
              axons 0 w st Hs) as (st' & Hrun & Hf & Hframe & Hobj).
  exists st'. split; [exact Hrun|]. split; [apply ticks_draws|].
  split; [exact Hf|]. split; [exact Hframe | exact Hobj].
Qed.

Lemma forward_concurrent_stream_witness :
  exists st',
    MockDendrite.forward steady (fun s => completion s) address_to
      [miner_at 1; miner_at 2] 0 12 true true true origin
      (one_request StreamPromptingSynapse "hello")
    = Returned [MockDendrite.VStream 1 12 false;
                MockDendrite.VStream 2 12 false]
        (ticks steady 2 origin) st'.
Proof.
  destruct (forward_concurrent_stream steady (fun s => completion s)
              address_to [miner_at 1; miner_at 2] 0 12 true origin
              (one_request StreamPromptingSynapse "hello"))
    as (st' & Hrun & _); [reflexivity | simpl; lia |].
  exists st'. exact Hrun.
Defined.

(** ** The tokenizer, the model and the pipeline *)

Lemma build_prompt_lines (messages : list (gmap string string))
    (prompt : string) :
  Forall well_keyed messages ->
  MockTokenizer.build_prompt messages prompt
  = Some (prompt +:+ String.concat "" (map chat_line messages)).
Proof.
  revert prompt. induction messages as [|m ms IH]; intros prompt H.
  - simpl. rewrite append_nil_r. reflexivity.
  - inversion H as [|? ? [[r Hr] [c Hc]] Hms]; subst.
    cbn [MockTokenizer.build_prompt]. rewrite Hr, Hc.
    rewrite (IH _ Hms). f_equal. rewrite append_assoc. f_equal.
    assert (Hline : chat_line m
                    = "<|mock-" +:+ MockTokenizer.role_expr_format r
                      +:+ "|> " +:+ c +:+ newline).
    { unfold chat_line, MockTokenizer.role_expr_format. rewrite Hr, Hc.
      cbn [default from_option]. rewrite !append_assoc. reflexivity. }
    destruct ms as [|m2 ms].
    + simpl. rewrite Hline, append_nil_r. reflexivity.
    + change (String.concat "" (map chat_line (m :: m2 :: ms)))
        with (chat_line m
              +:+ ("" +:+ String.concat "" (map chat_line (m2 :: ms)))).
      rewrite Hline. reflexivity.
Qed.

Lemma build_prompt_key_error (messages : list (gmap string string))
    (prompt : string) :
  ~ Forall well_keyed messages ->
  MockTokenizer.build_prompt messages prompt = None.
Proof.
  revert prompt. induction messages as [|m ms IH]; intros prompt H.
  - exfalso. apply H. constructor.
  - cbn [MockTokenizer.build_prompt].
    destruct (m !! "role") as [r|] eqn:Hr; [|reflexivity].
    destruct (m !! "content") as [c|] eqn:Hc; [|reflexivity].
    apply IH. intros Hms. apply H. constructor; [|exact Hms].
    split; [rewrite Hr | rewrite Hc]; eauto.
Qed.

(** X11. [apply_chat_template] fails with a [KeyError] exactly when a
    message lacks its "role" or its "content". Otherwise it returns the
    lines of the messages, each of the form
    "<|mock-<|mock-ROLE|>|> CONTENT" and a newline, put end to end, with a
    newline between every two characters. *)
Theorem apply_chat_template_outcome (messages : list (gmap string string)) :
  (Forall well_keyed messages ->
   MockTokenizer.apply_chat_template messages
   = Some (join_chars newline (String.concat "" (map chat_line messages)))) /\
  (MockTokenizer.apply_chat_template messages = None <->
   ~ Forall well_keyed messages).
Proof.
  unfold MockTokenizer.apply_chat_template. split; [|split].
  - intros H. rewrite (build_prompt_lines messages "" H). reflexivity.
  - intros Hnone Hall. rewrite (build_prompt_lines messages "" Hall) in Hnone.
    discriminate.
  - intros H. rewrite (build_prompt_key_error messages "" H). reflexivity.
Qed.

Lemma apply_chat_template_outcome_witness :
  MockTokenizer.apply_chat_template
    [ {[ "role" := "user"; "content" := "hi" ]} ]
  = Some (join_chars newline ("<|mock-<|mock-user|>|> hi" +:+ newline)).
Proof.
  refine (proj1 (apply_chat_template_outcome
                   [ {[ "role" := "user"; "content" := "hi" ]} ]) _).
  repeat constructor; vm_compute; eauto.
Defined.

(** X12. [sep.join(s)] over the characters of a string of [n > 0]
    characters, with a separator of one character: the result has [2n - 1]
    characters, the characters of [s] at its even positions and the
    separator at its odd positions. *)
Theorem join_chars_interleaves (c : ascii) (s : string) :
  String.length (join_chars (String c "") s) = (2 * String.length s - 1)%nat /\
  (forall i, (i < String.length s)%nat ->
     String.get (2 * i) (join_chars (String c "") s) = String.get i s) /\
  (forall i, (S i < String.length s)%nat ->
     String.get (S (2 * i)) (join_chars (String c "") s) = Some c).
Proof.
  unfold join_chars. induction s as [|x s IH]; [repeat split; simpl; lia|].
  destruct s as [|y s].
  - repeat split.
    + intros [|i] Hi; [reflexivity | simpl in Hi; lia].
    + intros i Hi. simpl in Hi. lia.
  - destruct IH as (IHlen & IHeven & IHodd).
    change (String.concat (String c "")
              (map (fun c0 => String c0 "")
                 (list_ascii_of_string (String x (String y s)))))
      with (String x
              (String c
                 (String.concat (String c "")
                    (map (fun c0 => String c0 "")
                       (list_ascii_of_string (String y s)))))).
    repeat split.
    + cbn [String.length]. rewrite IHlen. cbn [String.length]. lia.
    + intros [|i] Hi; [reflexivity|].
      replace (2 * S i)%nat with (S (S (2 * i))) by lia.
      cbn [String.get]. apply IHeven. cbn [String.length] in *. lia.
    + intros [|i] Hi; [reflexivity|].
      replace (S (2 * S i))%nat with (S (S (S (2 * i)))) by lia.
      cbn [String.get]. apply IHodd. cbn [String.length] in *. lia.
Qed.

Lemma split_sep_from_absent (sep cur s : string) :
  contains sep s = false -> split_sep_from sep 0 cur s = [cur +:+ s].
Proof.
  revert cur. induction s as [|c s IH]; intros cur H.
  - simpl. rewrite append_nil_r. reflexivity.
  - cbn [contains] in H. apply orb_false_iff in H as [Hhead Htail].
    cbn [split_sep_from]. rewrite Hhead, (IH _ Htail), append_assoc.
    reflexivity.
Qed.

(** X13. Whatever the messages, the pipeline answers with one dict whose
    "generated_text" is the phrase of its model with the whitespace at its
    two ends removed, provided the phrase does not hold the assistant tag
    "<|mock-assistant|>". *)
Theorem pipeline_echoes_phrase {M : Type} (phrase : string) (messages : M) :
  contains (MockTokenizer.role_expr_format "assistant") phrase = false ->
  MockPipeline.forward
    {| MockPipeline.model := {| MockModel.phrase := phrase |} |} messages
  = [ {[ "generated_text" := strip phrase ]} ].
Proof.
  intros Habsent.
  unfold MockPipeline.forward, MockPipeline.postprocess, MockModel.forward.
  cbn [MockModel.phrase MockPipeline.model].
  assert (Hsplit :
    split_sep (MockTokenizer.role_expr_format "assistant")
      (MockTokenizer.role_expr_format "assistant" +:+ " " +:+ phrase)
    = [""; " " +:+ phrase]).
  { unfold split_sep.
    change (MockTokenizer.role_expr_format "assistant" +:+ " " +:+ phrase)
      with ("<|mock-assistant|> " +:+ phrase).
    change ("<|mock-assistant|> " +:+ phrase)
      with (String "<" ("|mock-assistant|> " +:+ phrase)).
    cbn [split_sep_from]. 
    change (startswith (MockTokenizer.role_expr_format "assistant")
              (String "<" ("|mock-assistant|> " +:+ phrase))) with true.
    cbv iota. f_equal.
    change (String.length (MockTokenizer.role_expr_format "assistant") - 1)%nat
      with 17%nat.
    change ("|mock-assistant|> " +:+ phrase)
      with (String "|" (String "m" (String "o" (String "c" (String "k"
             (String "-" (String "a" (String "s" (String "s" (String "i"
             (String "s" (String "t" (String "a" (String "n" (String "t"
             (String "|" (String ">" (String " " phrase)))))))))))))))))).
    cbn [split_sep_from].
    change (startswith (MockTokenizer.role_expr_format "assistant")
              (String " " phrase)) with false.
    cbv iota.
    rewrite (split_sep_from_absent _ _ _ Habsent). reflexivity. }
  rewrite Hsplit. cbn [List.last].
  change (strip (" " +:+ phrase)) with (strip phrase). reflexivity.
Qed.

Lemma pipeline_echoes_phrase_witness :
  MockPipeline.forward (MockPipeline.init None) ["any"; "messages"]
  = [ {[ "generated_text" := "Mock llm output" ]} ].
Proof.
  exact (pipeline_echoes_phrase "Mock llm output" ["any"; "messages"]
           eq_refl).
Defined.

(** ** The timeout of the streaming call *)

Section FullBatch.
Context (env : Env) (self : MockStreamMiner.t) (start_time : Q).

Let T := MockStreamMiner.timeout self.
Let batch := MockStreamMiner.streaming_batch_size self.

(** Tokens that fill the batch exactly, read while the clock stays within
    the timeout, are yielded together after the delay. *)
Lemma _forward_loop_fill (b : list string) (token : string)
    (rest buffer : list string) (w : World) :
  Z.of_nat (length buffer + length b + 1) = batch ->
  (forall j, (j <= length b)%nat ->
     (now (ticks env (S j) w) - start_time <= T)%Q) ->
  (0 <= batch_delay env T (draws w))%Q ->
  MockStreamMiner._forward_loop env self start_time (b ++ token :: rest)
    buffer w
  = Yielded (buffer ++ b ++ [token], true)
      (batch_world env T (ticks env (length b) w))
      (fun w' => MockStreamMiner._forward_loop env self start_time rest []
                   w').
Proof.
  revert buffer w. induction b as [|x b IH]; intros buffer w Hb Ht Hd.
  - change ([] ++ token :: rest) with (token :: rest).
    rewrite _forward_loop_batch; [reflexivity | | | exact Hd].
    + apply (Ht 0%nat). simpl. lia.
    + rewrite length_app. simpl in *. fold batch. lia.
  - change ((x :: b) ++ token :: rest) with (x :: (b ++ token :: rest)).
    rewrite _forward_loop_next.
    + rewrite IH.
      * rewrite <- app_assoc. reflexivity.
      * rewrite length_app. simpl in *. lia.
      * intros j Hj. apply (Ht (S j)). simpl. lia.
      * exact Hd.
    + apply (Ht 0%nat). simpl. lia.
    + rewrite length_app. simpl in *. fold batch. lia.
Qed.
End FullBatch.

(** X17. A prompt of at least twelve tokens whose first twelve are read
    within the timeout, and whose first batch reaches the driver after the
    timeout, ends as a timeout: the call returns a record with the status
    408 "Timeout", [process_time] equal to the timeout and, as completion,
    the first twelve tokens joined by single spaces. *)
Theorem call_stream_times_out_after_first_batch (env : Env) {D : Type}
    (deserialize_ : Synapse -> D) (fuel : nat) (synapse : loc) (T : Q)
    (deserialize : bool) (w : World) (st : Store) (prompt : string) :
  list.last (messages (obj st synapse)) = Some prompt ->
  (12 <= length (split prompt))%nat ->
  (forall j, (j < 12)%nat ->
     (now (ticks env (S (S j)) w) - now (ticks env 1 w) <= T)%Q) ->
  (0 <= batch_delay env T (draws w))%Q ->
  (T < now (ticks env 1 (batch_world env T (ticks env 12 w)))
       - now (ticks env 1 w))%Q ->
  exists v st',
    MockDendrite.call_stream env deserialize_ (S fuel) synapse T deserialize
      w st
    = Returned v (ticks env 1 (batch_world env T (ticks env 12 w))) st' /\
    completion (obj st' synapse) = join (take 12 (split prompt)) /\
    status_code (dendrite (obj st' synapse)) = Some 408%Z /\
    status_message (dendrite (obj st' synapse)) = Some "Timeout" /\
    process_time (dendrite (obj st' synapse)) = Some (str T).
Proof.
  intros Hlast Hlen Hclock Hdelay Hlate.
  assert (Hparts : exists b token rest,
            split prompt = b ++ token :: rest /\ length b = 11%nat /\
            take 12 (split prompt) = b ++ [token]).
  { destruct (drop 11 (split prompt)) as [|token rest] eqn:Hdrop.
    - apply (f_equal length) in Hdrop. rewrite length_drop in Hdrop.
      simpl in Hdrop. lia.
    - assert (Hl : length (take 11 (split prompt)) = 11%nat)
        by (rewrite length_take; lia).
      assert (Hsplit : split prompt
                       = take 11 (split prompt) ++ token :: rest)
        by (rewrite <- Hdrop; symmetry; apply take_drop).
      revert Hl Hsplit. generalize (take 11 (split prompt)) as b.
      intros b Hl Hsplit. exists b, token, rest.
      split; [exact Hsplit|]. split; [exact Hl|]. rewrite Hsplit.
      apply (take_app_add' b (token :: rest) 11 1). symmetry. exact Hl. }
  destruct Hparts as (b & token & rest & Hsplit & Hb & Htake).
  unfold MockDendrite.call_stream.
  change (time_time env w) with (now (ticks env 1 w), ticks env 1 w).
  cbv iota beta. unfold MockStreamMiner.forward. rewrite Hlast.
  cbn [MockDendrite.while_loop MockDendrite.continue_streaming
       MockDendrite.world MockDendrite.response_buffer MockDendrite.store].
  unfold MockStreamMiner._forward. rewrite Htake, Hsplit.
  rewrite _forward_loop_fill.
  2:{ simpl. rewrite Hb. reflexivity. }
  2:{ intros j Hj. apply (Hclock j). lia. }
  2:{ rewrite ticks_draws. exact Hdelay. }
  rewrite Hb. cbn [MockDendrite.for_loop negb app MockStreamMiner.timeout].
  change (ticks env 11 (ticks env 1 w)) with (ticks env 12 w).
  set (wb := batch_world env T (ticks env 12 w)) in *.
  change (time_time env wb) with (now (ticks env 1 wb), ticks env 1 wb).
  cbv iota beta. apply Qgtb_true in Hlate. rewrite Hlate.
  destruct fuel;
    (cbn [MockDendrite.while_loop MockDendrite.continue_streaming
          MockDendrite.world MockDendrite.store];
     eexists _, _; split; [reflexivity|]; store_reads; repeat split).
Qed.

Lemma call_stream_times_out_after_first_batch_witness :
  exists v st',
    MockDendrite.call_stream slow_clock (fun s => completion s) 1 0 8 false
      origin (one_request StreamPromptingSynapse twelve_tokens)
    = Returned v
        (ticks slow_clock 1 (batch_world slow_clock 8 (ticks slow_clock 12 origin)))
        st' /\
    completion (obj st' 0) = twelve_tokens /\
    status_code (dendrite (obj st' 0)) = Some 408%Z.
Proof.
  destruct (call_stream_times_out_after_first_batch slow_clock
              (fun s => completion s) 0 0 8 false origin
              (one_request StreamPromptingSynapse twelve_tokens)
              twelve_tokens)
    as (v & st' & Hrun & Hc & Hs & _).
  - reflexivity.
  - vm_compute. lia.
  - intros j Hj.
    do 12 (destruct j as [|j]; [vm_compute; discriminate|]). lia.
  - vm_compute. discriminate.
  - vm_compute. reflexivity.
  - exists v, st'. split; [exact Hrun|]. split; [exact Hc | exact Hs].
Defined.
